(** * Effort controllers: Cartesian impedance control with a safety filter

    A shallow embedding of the torque pipeline of the effort controllers
    (effort_controller_base.cpp, hocbf_cartesian_impedance_controller.cpp and
    the two cartesian_impedance_controller.cpp variants that accompany it).

    Numbers.  The geometry and the control law are embedded over the exact
    reals [R]: rounding is abstracted away, the formulas are the ones of the
    source.  The effort limiter is embedded over [double], reals extended
    with the IEEE special values, because its behaviour on NaN limits is
    part of its design.

    External libraries.  Eigen's dense algebra and KDL's frame algebra are
    written out (they are plain algebra); KDL's numerically guarded routines
    (axis-angle extraction, vector normalisation, quaternion conversion), the
    kinematics and dynamics solvers and the safety filter are interfaces. *)

From Stdlib Require Import String ZArith Bool.
From Stdlib Require Import Reals Lra Lia List.
Import ListNotations.

Local Open Scope R_scope.

(* ------------------------------------------------------------------------- *)
(** ** Eigen: dense vectors and matrices *)

Module Eigen.

(** ctrl::VectorND, Eigen::VectorXd, Eigen::Vector3d *)
Definition VectorND := list R.
(** ctrl::Vector6D: six coefficients, no more and no less *)
Record Vector6D := mkVector6D {
  v0 : R; v1 : R; v2 : R; v3 : R; v4 : R; v5 : R }.
(** ctrl::MatrixND, ctrl::Matrix6D, ctrl::Matrix3D: the list of the rows *)
Definition MatrixND := list (list R).

Definition Zero (n : nat) : VectorND := repeat 0 n.
Definition Zero6 : Vector6D := mkVector6D 0 0 0 0 0 0.

(** A 6D vector as an operand of the dynamically sized algebra. *)
Definition coeffs (v : Vector6D) : VectorND :=
  [v0 v; v1 v; v2 v; v3 v; v4 v; v5 v].

(** The first six coefficients of a product that has six rows. *)
Definition as6 (v : VectorND) : Vector6D :=
  mkVector6D (nth 0 v 0) (nth 1 v 0) (nth 2 v 0)
             (nth 3 v 0) (nth 4 v 0) (nth 5 v 0).

(** v[i] = a, for i = 0..5 *)
Definition set6 (v : Vector6D) (i : nat) (a : R) : Vector6D :=
  match i with
  | 0%nat => mkVector6D a (v1 v) (v2 v) (v3 v) (v4 v) (v5 v)
  | 1%nat => mkVector6D (v0 v) a (v2 v) (v3 v) (v4 v) (v5 v)
  | 2%nat => mkVector6D (v0 v) (v1 v) a (v3 v) (v4 v) (v5 v)
  | 3%nat => mkVector6D (v0 v) (v1 v) (v2 v) a (v4 v) (v5 v)
  | 4%nat => mkVector6D (v0 v) (v1 v) (v2 v) (v3 v) a (v5 v)
  | 5%nat => mkVector6D (v0 v) (v1 v) (v2 v) (v3 v) (v4 v) a
  | _ => v
  end.

Definition vadd6 (a b : Vector6D) : Vector6D :=
  mkVector6D (v0 a + v0 b) (v1 a + v1 b) (v2 a + v2 b)
             (v3 a + v3 b) (v4 a + v4 b) (v5 a + v5 b).

Fixpoint vadd (u v : VectorND) : VectorND :=
  match u, v with
  | a :: u', b :: v' => (a + b) :: vadd u' v'
  | _, _ => []
  end.

Fixpoint vsub (u v : VectorND) : VectorND :=
  match u, v with
  | a :: u', b :: v' => (a - b) :: vsub u' v'
  | _, _ => []
  end.

Definition vscale (c : R) (v : VectorND) : VectorND := map (Rmult c) v.

Fixpoint dot (u v : VectorND) : R :=
  match u, v with
  | a :: u', b :: v' => a * b + dot u' v'
  | _, _ => 0
  end.

Definition rows (A : MatrixND) : nat := length A.
Definition cols (A : MatrixND) : nat := length (hd [] A).

Definition col (j : nat) (A : MatrixND) : VectorND :=
  map (fun r => nth j r 0) A.

Definition transpose (A : MatrixND) : MatrixND :=
  map (fun j => col j A) (seq 0 (cols A)).

(** matrix * vector *)
Definition mvmul (A : MatrixND) (v : VectorND) : VectorND :=
  map (fun r => dot r v) A.

(** matrix * matrix *)
Definition mmul (A B : MatrixND) : MatrixND :=
  map (fun r => map (fun j => dot r (col j B)) (seq 0 (cols B))) A.

Definition mscale (c : R) (A : MatrixND) : MatrixND := map (vscale c) A.

Definition Identity (n : nat) : MatrixND :=
  map (fun i => map (fun j => if Nat.eqb i j then 1 else 0) (seq 0 n))
      (seq 0 n).

(** v.asDiagonal() *)
Definition asDiagonal (v : VectorND) : MatrixND :=
  map (fun i => map (fun j => if Nat.eqb i j then nth i v 0 else 0)
                    (seq 0 (length v)))
      (seq 0 (length v)).

(** A.topLeftCorner<3,3>() and A.bottomRightCorner<3,3>() of a 6x6 matrix *)
Definition topLeftCorner3 (A : MatrixND) : MatrixND :=
  map (firstn 3) (firstn 3 A).
Definition bottomRightCorner3 (A : MatrixND) : MatrixND :=
  map (skipn 3) (skipn 3 A).

(** The 6x6 matrix that is zero but for its two diagonal 3x3 blocks. *)
Definition blockDiagonal (TL BR : MatrixND) : MatrixND :=
  map (fun r => r ++ Zero 3) TL ++ map (fun r => Zero 3 ++ r) BR.

(** A.inverse().  Over the reals the inverse of a regular matrix is
    adj(A) / det(A); the determinant is expanded along the first row. *)
Definition drop_nth {A : Type} (j : nat) (l : list A) : list A :=
  firstn j l ++ skipn (S j) l.

Definition sign (k : nat) : R := if Nat.even k then 1 else -1.

Fixpoint det_n (n : nat) (A : MatrixND) : R :=
  match n with
  | O => 1
  | S n' =>
      match A with
      | [] => 0
      | r :: rest =>
          fold_right Rplus 0
            (map (fun j => sign j * nth j r 0
                           * det_n n' (map (drop_nth j) rest))
                 (seq 0 (S n')))
      end
  end.

Definition determinant (A : MatrixND) : R := det_n (rows A) A.

Definition cofactor (i j : nat) (A : MatrixND) : R :=
  sign (i + j) * det_n (rows A - 1) (map (drop_nth j) (drop_nth i A)).

Definition adjugate (A : MatrixND) : MatrixND :=
  map (fun i => map (fun j => cofactor j i A) (seq 0 (rows A)))
      (seq 0 (rows A)).

Definition inverse (A : MatrixND) : MatrixND :=
  map (map (fun a => a / determinant A)) (adjugate A).

End Eigen.

(* ------------------------------------------------------------------------- *)
(** ** KDL: vectors, rotations, frames, wrenches *)

Module KDL.

Record Vector := mkVector { x : R; y : R; z : R }.

(** Rotation::data[0..8], row by row; the columns are the unit vectors of
    the rotated frame. *)
Record Rotation := mkRotation {
  d0 : R; d1 : R; d2 : R;
  d3 : R; d4 : R; d5 : R;
  d6 : R; d7 : R; d8 : R }.

Record Frame := mkFrame { M : Rotation; p : Vector }.
Record Twist := mkTwist { vel : Vector; rot : Vector }.
Record Wrench := mkWrench { force : Vector; torque : Vector }.

Definition Vector_Zero : Vector := mkVector 0 0 0.
Definition Rotation_Identity : Rotation := mkRotation 1 0 0 0 1 0 0 0 1.

(** Vector - Vector, Vector * double, double * Vector *)
Definition vminus (a b : Vector) : Vector :=
  mkVector (x a - x b) (y a - y b) (z a - z b).
Definition vplus (a b : Vector) : Vector :=
  mkVector (x a + x b) (y a + y b) (z a + z b).
Definition vtimes (a : Vector) (c : R) : Vector :=
  mkVector (x a * c) (y a * c) (z a * c).
Definition stimes (c : R) (a : Vector) : Vector :=
  mkVector (c * x a) (c * y a) (c * z a).

(** Vector * Vector is the cross product. *)
Definition cross (a b : Vector) : Vector :=
  mkVector (y a * z b - z a * y b)
           (z a * x b - x a * z b)
           (x a * y b - y a * x b).

Definition Norm (a : Vector) : R :=
  sqrt (x a * x a + y a * y a + z a * z a).

(** Rotation * Rotation *)
Definition rmul (A B : Rotation) : Rotation :=
  mkRotation
    (d0 A * d0 B + d1 A * d3 B + d2 A * d6 B)
    (d0 A * d1 B + d1 A * d4 B + d2 A * d7 B)
    (d0 A * d2 B + d1 A * d5 B + d2 A * d8 B)
    (d3 A * d0 B + d4 A * d3 B + d5 A * d6 B)
    (d3 A * d1 B + d4 A * d4 B + d5 A * d7 B)
    (d3 A * d2 B + d4 A * d5 B + d5 A * d8 B)
    (d6 A * d0 B + d7 A * d3 B + d8 A * d6 B)
    (d6 A * d1 B + d7 A * d4 B + d8 A * d7 B)
    (d6 A * d2 B + d7 A * d5 B + d8 A * d8 B).

(** Rotation::Inverse(): the transposed matrix *)
Definition Inverse (A : Rotation) : Rotation :=
  mkRotation (d0 A) (d3 A) (d6 A)
             (d1 A) (d4 A) (d7 A)
             (d2 A) (d5 A) (d8 A).

(** Rotation * Vector *)
Definition rapply (A : Rotation) (v : Vector) : Vector :=
  mkVector (d0 A * x v + d1 A * y v + d2 A * z v)
           (d3 A * x v + d4 A * y v + d5 A * z v)
           (d6 A * x v + d7 A * y v + d8 A * z v).

(** Rotation * Wrench rotates force and torque separately. *)
Definition rwrench (A : Rotation) (w : Wrench) : Wrench :=
  mkWrench (rapply A (force w)) (rapply A (torque w)).

Definition UnitX (A : Rotation) : Vector := mkVector (d0 A) (d3 A) (d6 A).
Definition UnitY (A : Rotation) : Vector := mkVector (d1 A) (d4 A) (d7 A).
Definition UnitZ (A : Rotation) : Vector := mkVector (d2 A) (d5 A) (d8 A).

(** The rotation as an Eigen 3x3 matrix (R << data[0], ..., data[8]). *)
Definition toMatrix (A : Rotation) : Eigen.MatrixND :=
  [ [d0 A; d1 A; d2 A]; [d3 A; d4 A; d5 A]; [d6 A; d7 A; d8 A] ].

(** wrench_kdl(i) = vector[i] for i = 0..5, and back. *)
Definition Wrench_of (v : Eigen.Vector6D) : Wrench :=
  mkWrench (mkVector (Eigen.v0 v) (Eigen.v1 v) (Eigen.v2 v))
           (mkVector (Eigen.v3 v) (Eigen.v4 v) (Eigen.v5 v)).
Definition Wrench_to (w : Wrench) : Eigen.Vector6D :=
  Eigen.mkVector6D (x (force w)) (y (force w)) (z (force w))
                   (x (torque w)) (y (torque w)) (z (torque w)).

(** JntArray(n) is zero initialised. *)
Definition JntArray (n : nat) : Eigen.VectorND := Eigen.Zero n.

(** The routines of KDL that guard against rounding with thresholds:
    [GetRotAngle] returns the angle and sets the axis, [Normalize]
    returns the norm and normalises the vector in place, [Quaternion]
    builds a rotation from (x, y, z, w). *)
Class Geometry := {
  GetRotAngle : Rotation -> R * Vector;
  Normalize : Vector -> R * Vector;
  Quaternion : R -> R -> R -> R -> Rotation
}.


End KDL.

(* ------------------------------------------------------------------------- *)
(** ** effort_controller_base: EffortControllerBase *)

Module Base.
Import Eigen.

(** A C++ double as far as the effort limiter can tell values apart: a
    real, an infinity, or NaN. *)
Inductive double := Finite (r : R) | PosInf | NegInf | NaN.

Definition Rleb (a b : R) : bool := if Rle_dec a b then true else false.

(** a >= b; any comparison with NaN is false. *)
Definition ge (a b : double) : bool :=
  match a, b with
  | NaN, _ | _, NaN => false
  | Finite u, Finite v => Rleb v u
  | PosInf, _ => true
  | _, NegInf => true
  | _, _ => false
  end.

(** a <= b *)
Definition le (a b : double) : bool := ge b a.

(** -a *)
Definition opp (a : double) : double :=
  match a with
  | Finite r => Finite (- r)
  | PosInf => NegInf
  | NegInf => PosInf
  | NaN => NaN
  end.

(** hardware_interface::HW_IF_EFFORT *)
Definition HW_IF_EFFORT : string := "effort".

(** urdf::Joint, as far as on_configure reads it *)
Inductive JointType :=
  UNKNOWN | REVOLUTE | CONTINUOUS | PRISMATIC | FLOATING | PLANAR | FIXED.

Record Joint := mkJoint {
  type : JointType;
  limits_upper : double;
  limits_lower : double;
  limits_effort : double }.

(** The members of the class that the functions below read or write.
    [m_joint_cmd_eff_handles] and [m_joint_state_pos_handles] hold the
    value of each loaned hardware interface; [ik_positions] is what
    m_ik_solver->getPositions() returns. *)
Record State := mkState {
  m_cmd_interface_types : list string;
  m_joint_names : list string;
  m_joint_effort_limits : list double;
  m_efforts : list double;
  m_joint_cmd_eff_handles : list double;
  m_joint_state_pos_handles : list R;
  m_joint_positions : VectorND;
  m_jacobian : MatrixND;
  m_robot_base_link : string;
  m_end_effector_link : string;
  ik_positions : VectorND }.

Definition set_efforts (v : list double) (s : State) : State :=
  mkState (m_cmd_interface_types s) (m_joint_names s)
          (m_joint_effort_limits s) v (m_joint_cmd_eff_handles s)
          (m_joint_state_pos_handles s) (m_joint_positions s)
          (m_jacobian s) (m_robot_base_link s) (m_end_effector_link s)
          (ik_positions s).

Definition set_cmd_eff_handles (v : list double) (s : State) : State :=
  mkState (m_cmd_interface_types s) (m_joint_names s)
          (m_joint_effort_limits s) (m_efforts s) v
          (m_joint_state_pos_handles s) (m_joint_positions s)
          (m_jacobian s) (m_robot_base_link s) (m_end_effector_link s)
          (ik_positions s).

Definition set_joint_positions (v : VectorND) (s : State) : State :=
  mkState (m_cmd_interface_types s) (m_joint_names s)
          (m_joint_effort_limits s) (m_efforts s)
          (m_joint_cmd_eff_handles s) (m_joint_state_pos_handles s) v
          (m_jacobian s) (m_robot_base_link s) (m_end_effector_link s)
          (ik_positions s).

Definition set_jacobian (J : MatrixND) (s : State) : State :=
  mkState (m_cmd_interface_types s) (m_joint_names s)
          (m_joint_effort_limits s) (m_efforts s)
          (m_joint_cmd_eff_handles s) (m_joint_state_pos_handles s)
          (m_joint_positions s) J (m_robot_base_link s)
          (m_end_effector_link s) (ik_positions s).

(** v[i] = a.  An index out of range is undefined behaviour in the
    source; the configured controller keeps all per-joint arrays at the
    length of m_joint_names, and here such a write changes nothing. *)
Fixpoint assign {A : Type} (i : nat) (a : A) (v : list A) : list A :=
  match v, i with
  | [], _ => []
  | _ :: v', O => a :: v'
  | b :: v', S i' => b :: assign i' a v'
  end.

(** on_configure, the loop that parses the joint limits: a continuous
    joint gets NaN, any other joint the effort limit of the URDF; a name
    that the model does not know aborts the configuration. *)
Definition effort_limit_of (j : Joint) : double :=
  match type j with
  | CONTINUOUS => NaN
  | _ => limits_effort j
  end.

Fixpoint parse_effort_limits (getJoint : string -> option Joint)
         (names : list string) : option (list double) :=
  match names with
  | [] => Some []
  | nm :: rest =>
      match getJoint nm with
      | None => None
      | Some j =>
          match parse_effort_limits getJoint rest with
          | None => None
          | Some ls => Some (effort_limit_of j :: ls)
          end
      end
  end.

(** writeJointEffortCmds: the body of the inner loop for joint i ... *)
Definition saturate (e L : double) : double :=
  if ge e L then L
  else if le e (opp L) then opp L
  else e.

Definition write_joint (s : State) (i : nat) : State :=
  let e := saturate (nth i (m_efforts s) NaN)
                    (nth i (m_joint_effort_limits s) NaN) in
  let s := set_efforts (assign i e (m_efforts s)) s in
  set_cmd_eff_handles (assign i e (m_joint_cmd_eff_handles s)) s.

(** ... and the two loops, over the command interface types and over the
    joints. *)
Definition writeJointEffortCmds (s : State) : State :=
  fold_left
    (fun s type =>
       if String.eqb type HW_IF_EFFORT
       then fold_left write_joint (seq 0 (length (m_joint_names s))) s
       else s)
    (m_cmd_interface_types s) s.

(** The kinematics the base class consults. *)
Class Kinematics := {
  (** m_jnt_to_jac_solver->JntToJac(q, jacobian) *)
  JntToJac : VectorND -> MatrixND;
  (** m_fk_solver->JntToCart(q, frame): the frame of the end effector *)
  fk_JntToCart : VectorND -> KDL.Frame;
  (** m_forward_kinematics_solver->JntToCart(q, frame, segment) *)
  JntToCart : VectorND -> string -> KDL.Frame
}.

Section WithKinematics.
Context {kin : Kinematics}.

(** computeJointEffortCmds(error, period) *)
Definition computeJointEffortCmds (error : Vector6D) (s : State) : State :=
  let s := set_jacobian (JntToJac (m_joint_positions s)) s in
  set_efforts
    (map Finite (mvmul (transpose (m_jacobian s)) (coeffs error))) s.

(** displayInBaseLink(vector, from) *)
Definition displayInBaseLink (s : State) (vector : Vector6D)
           (from : string) : Vector6D :=
  let wrench_kdl := KDL.Wrench_of vector in
  let transform_kdl := JntToCart (ik_positions s) from in
  let wrench_kdl := KDL.rwrench (KDL.M transform_kdl) wrench_kdl in
  KDL.Wrench_to wrench_kdl.

(** displayInBaseLink(tensor, from) *)
Definition displayInBaseLink_tensor (s : State) (tensor : MatrixND)
           (from : string) : MatrixND :=
  let R_kdl := JntToCart (ik_positions s) from in
  let R := KDL.toMatrix (KDL.M R_kdl) in
  blockDiagonal
    (mmul (mmul R (topLeftCorner3 tensor)) (transpose R))
    (mmul (mmul R (bottomRightCorner3 tensor)) (transpose R)).

(** displayInTipLink(vector, to) *)
Definition displayInTipLink (s : State) (vector : Vector6D)
           (to : string) : Vector6D :=
  let wrench_kdl := KDL.Wrench_of vector in
  let transform_kdl := JntToCart (ik_positions s) to in
  let wrench_kdl :=
    KDL.rwrench (KDL.Inverse (KDL.M transform_kdl)) wrench_kdl in
  KDL.Wrench_to wrench_kdl.
End WithKinematics.

(** updateJointStates *)
Definition updateJointStates (s : State) : State :=
  fold_left
    (fun s i =>
       set_joint_positions
         (assign i (nth i (m_joint_state_pos_handles s) 0)
                 (m_joint_positions s)) s)
    (seq 0 (length (m_joint_names s))) s.

(** Modelled from the spec: the overload
    computeJointEffortCmds(const ctrl::VectorND&) that the controllers'
    update() calls between computeTorque() and writeJointEffortCmds() is
    not among the sources.  The spec has the core propagate the torque
    unmodified except for the final saturation, which is
    writeJointEffortCmds; so the overload stores the torque in m_efforts. *)
Definition computeJointEffortCmds_tau (tau : list double) (s : State)
  : State :=
  set_efforts tau s.

(** The last two statements of update(): the torque of this tick goes
    through the effort limiter to the hardware. *)
Definition effort_stage (tau_tot : list double) (s : State) : State :=
  writeJointEffortCmds (computeJointEffortCmds_tau tau_tot s).

End Base.

(* ------------------------------------------------------------------------- *)
(** ** Messages and the throttled logger *)

Module geometry_msgs.

Record PoseStamped := mkPoseStamped {
  pose_frame_id : string;
  position_x : R; position_y : R; position_z : R;
  orientation_x : R; orientation_y : R; orientation_z : R;
  orientation_w : R }.

Record WrenchStamped := mkWrenchStamped {
  wrench_frame_id : string;
  force_x : R; force_y : R; force_z : R;
  torque_x : R; torque_y : R; torque_z : R }.

End geometry_msgs.

Module rclcpp.

(** RCLCPP_WARN_THROTTLE(logger, clock, duration, ...): the message is
    printed when the clock has reached the time of the last print plus the
    duration, and that time is then set to now.  Times are in milliseconds;
    the result is whether the message is printed, and the new time of the
    last print. *)
Definition THROTTLE (duration now last_logged : Z) : bool * Z :=
  if (last_logged + duration <=? now)%Z then (true, now)
  else (false, last_logged).

End rclcpp.

(** std::clamp(v, lo, hi) *)
Definition clamp (v lo hi : R) : R :=
  if Rlt_dec v lo then lo else if Rlt_dec hi v then hi else v.

(** The translation block error.head<3>() and the rotation block
    error.tail<3>() of a 6D error. *)
Definition head3 (e : Eigen.Vector6D) : KDL.Vector :=
  KDL.mkVector (Eigen.v0 e) (Eigen.v1 e) (Eigen.v2 e).
Definition tail3 (e : Eigen.Vector6D) : KDL.Vector :=
  KDL.mkVector (Eigen.v3 e) (Eigen.v4 e) (Eigen.v5 e).

(* ------------------------------------------------------------------------- *)
(** ** hocbf_cartesian_impedance_controller *)

Module HOCBFCartesianImpedanceController.
Import Eigen.

(** The joint-space dynamics solver m_dyn_solver. *)
Class Dynamics := {
  (** m_dyn_solver->JntToMass(q, M) *)
  JntToMass : VectorND -> MatrixND;
  (** m_dyn_solver->JntToGravity(q, g) *)
  JntToGravity : VectorND -> VectorND;
  (** m_dyn_solver->JntToCoriolis(q, q_dot, c) *)
  JntToCoriolis : VectorND -> VectorND -> VectorND
}.

(** The arguments of one call of planes_hocbf::hocbfPositionFilter, in the
    order of its parameter list. *)
Record FilterCall := mkFilterCall {
  arg_tau_nominal : VectorND;
  arg_Lambda : MatrixND;
  arg_jac : MatrixND;
  arg_tau_coriolis : VectorND;
  arg_current_frame : KDL.Frame;
  arg_dot_x : VectorND;
  arg_dt : R;
  arg_n : list VectorND;
  arg_p : list VectorND }.

(** The safety filter.  It rewrites the torque it is given through its
    first parameter and returns the log; here it returns both. *)
Class SafetyFilter := {
  hocbfPositionFilter : FilterCall -> VectorND * list R
}.

(** The members of the controller.  [base] is the base class;
    [m_joint_number], [m_joint_velocities] and the two compensation flags
    are read through the base class, too.  [warn_last_logged] is the state
    of the throttled warning of targetFrameCallback and [warnings] the times
    at which it was printed, latest first. *)
Record State := mkState {
  base : Base.State;
  m_joint_number : nat;
  m_joint_velocities : VectorND;
  m_compensate_gravity : bool;
  m_compensate_coriolis : bool;
  m_cartesian_stiffness : MatrixND;
  m_cartesian_damping : MatrixND;
  m_target_frame : KDL.Frame;
  m_current_frame : KDL.Frame;
  m_initial_frame : KDL.Frame;
  m_received_initial_frame : bool;
  m_target_wrench : Vector6D;
  m_last_time : R;
  warn_last_logged : Z;
  warnings : list Z }.

Definition set_base (b : Base.State) (s : State) : State :=
  mkState b (m_joint_number s) (m_joint_velocities s)
          (m_compensate_gravity s) (m_compensate_coriolis s)
          (m_cartesian_stiffness s) (m_cartesian_damping s)
          (m_target_frame s) (m_current_frame s) (m_initial_frame s)
          (m_received_initial_frame s) (m_target_wrench s) (m_last_time s)
          (warn_last_logged s) (warnings s).

Definition set_flags (g c : bool) (s : State) : State :=
  mkState (base s) (m_joint_number s) (m_joint_velocities s) g c
          (m_cartesian_stiffness s) (m_cartesian_damping s)
          (m_target_frame s) (m_current_frame s) (m_initial_frame s)
          (m_received_initial_frame s) (m_target_wrench s) (m_last_time s)
          (warn_last_logged s) (warnings s).

Definition set_target_frame (f : KDL.Frame) (s : State) : State :=
  mkState (base s) (m_joint_number s) (m_joint_velocities s)
          (m_compensate_gravity s) (m_compensate_coriolis s)
          (m_cartesian_stiffness s) (m_cartesian_damping s)
          f (m_current_frame s) (m_initial_frame s)
          (m_received_initial_frame s) (m_target_wrench s) (m_last_time s)
          (warn_last_logged s) (warnings s).

Definition set_current_frame (f : KDL.Frame) (s : State) : State :=
  mkState (base s) (m_joint_number s) (m_joint_velocities s)
          (m_compensate_gravity s) (m_compensate_coriolis s)
          (m_cartesian_stiffness s) (m_cartesian_damping s)
          (m_target_frame s) f (m_initial_frame s)
          (m_received_initial_frame s) (m_target_wrench s) (m_last_time s)
          (warn_last_logged s) (warnings s).

Definition set_initial_frame (f : KDL.Frame) (b : bool) (s : State) : State :=
  mkState (base s) (m_joint_number s) (m_joint_velocities s)
          (m_compensate_gravity s) (m_compensate_coriolis s)
          (m_cartesian_stiffness s) (m_cartesian_damping s)
          (m_target_frame s) (m_current_frame s) f b
          (m_target_wrench s) (m_last_time s)
          (warn_last_logged s) (warnings s).

Definition set_target_wrench (w : Vector6D) (s : State) : State :=
  mkState (base s) (m_joint_number s) (m_joint_velocities s)
          (m_compensate_gravity s) (m_compensate_coriolis s)
          (m_cartesian_stiffness s) (m_cartesian_damping s)
          (m_target_frame s) (m_current_frame s) (m_initial_frame s)
          (m_received_initial_frame s) w (m_last_time s)
          (warn_last_logged s) (warnings s).

Definition set_last_time (t : R) (s : State) : State :=
  mkState (base s) (m_joint_number s) (m_joint_velocities s)
          (m_compensate_gravity s) (m_compensate_coriolis s)
          (m_cartesian_stiffness s) (m_cartesian_damping s)
          (m_target_frame s) (m_current_frame s) (m_initial_frame s)
          (m_received_initial_frame s) (m_target_wrench s) t
          (warn_last_logged s) (warnings s).

Definition set_log (last : Z) (log : list Z) (s : State) : State :=
  mkState (base s) (m_joint_number s) (m_joint_velocities s)
          (m_compensate_gravity s) (m_compensate_coriolis s)
          (m_cartesian_stiffness s) (m_cartesian_damping s)
          (m_target_frame s) (m_current_frame s) (m_initial_frame s)
          (m_received_initial_frame s) (m_target_wrench s) (m_last_time s)
          last log.

(** What one call of computeTorque does: the members it leaves behind, the
    one call of the safety filter, the message published on /cbf_log, and
    the torque it returns. *)
Record Torque := mkTorque {
  state_after : State;
  filter_call : FilterCall;
  published : list R;
  tau_returned : VectorND }.

Section Controller.
Context {geo : KDL.Geometry} {kin : Base.Kinematics} {dyn : Dynamics}
        {flt : SafetyFilter}.

(** computeMotionError *)
Definition computeMotionError (s : State) : Vector6D :=
  let error_kdl_M :=
    KDL.rmul (KDL.M (m_target_frame s))
             (KDL.Inverse (KDL.M (m_current_frame s))) in
  let error_kdl_p :=
    KDL.vminus (KDL.p (m_target_frame s)) (KDL.p (m_current_frame s)) in
  let angle := fst (KDL.GetRotAngle error_kdl_M) in
  let rot_axis := snd (KDL.GetRotAngle error_kdl_M) in
  let distance := fst (KDL.Normalize error_kdl_p) in
  let error_kdl_p := snd (KDL.Normalize error_kdl_p) in
  let max_angle := 1 in
  let max_distance := 1 in
  let angle := clamp angle (- max_angle) max_angle in
  let distance := clamp distance (- max_distance) max_distance in
  let rot_axis := KDL.vtimes rot_axis angle in
  let error_kdl_p := KDL.vtimes error_kdl_p distance in
  mkVector6D (KDL.x error_kdl_p) (KDL.y error_kdl_p) (KDL.z error_kdl_p)
             (KDL.x rot_axis) (KDL.y rot_axis) (KDL.z rot_axis).

(** computeTorque; [current_time] is what the clock of the node returns.
    The pseudo-inverse of the transposed Jacobian is computed by the source
    and used nowhere (the null-space torque is commented out), and the
    throttled info message has no effect on the members; both are left
    out. *)
Definition computeTorque (current_time : R) (s : State) : Torque :=
  let q_pos := Base.m_joint_positions (base s) in
  let s := set_current_frame (Base.fk_JntToCart q_pos) s in
  let s := set_base (Base.set_jacobian (Base.JntToJac q_pos) (base s)) s in
  let jac := Base.m_jacobian (base s) in
  let q_dot := m_joint_velocities s in
  let dt := current_time - m_last_time s in
  let n := [ [0; 0; 1] ] in
  let p := [ vscale (4 / 10) [0; 0; 1] ] in
  let motion_error := computeMotionError s in
  let base_link_stiffness :=
    Base.displayInBaseLink_tensor (base s) (m_cartesian_stiffness s)
                                  (Base.m_end_effector_link (base s)) in
  let base_link_damping :=
    Base.displayInBaseLink_tensor (base s) (m_cartesian_damping s)
                                  (Base.m_end_effector_link (base s)) in
  let tau_task :=
    mvmul (transpose jac)
          (vsub (mvmul base_link_stiffness (coeffs motion_error))
                (mvmul base_link_damping (mvmul jac q_dot))) in
  let tau_nominal := tau_task in
  let tau_coriolis := KDL.JntArray (m_joint_number s) in
  let inertia_matrix := JntToMass q_pos in
  let Lambda := inverse (mmul (mmul jac inertia_matrix) (transpose jac)) in
  let dot_x := mvmul jac q_dot in
  let call :=
    mkFilterCall tau_nominal Lambda jac tau_coriolis (m_current_frame s)
                 dot_x dt n p in
  let tau_nominal := fst (hocbfPositionFilter call) in
  let logs := snd (hocbfPositionFilter call) in
  let s := set_last_time current_time s in
  let logs :=
    logs ++ [ nth 2 (nth 0 p []) 0;
              KDL.z (KDL.p (m_current_frame s));
              KDL.z (KDL.p (m_target_frame s)) ] in
  let tau_nominal :=
    if m_compensate_gravity s
    then vadd tau_nominal (JntToGravity q_pos)
    else tau_nominal in
  let tau_nominal :=
    if m_compensate_coriolis s
    then vadd tau_nominal (JntToCoriolis q_pos (m_joint_velocities s))
    else tau_nominal in
  mkTorque s call logs tau_nominal.

(** targetWrenchCallback *)
Definition targetWrenchCallback (wrench : geometry_msgs.WrenchStamped)
           (s : State) : State :=
  let w := m_target_wrench s in
  let w := set6 w 0 (geometry_msgs.force_x wrench) in
  let w := set6 w 1 (geometry_msgs.force_y wrench) in
  let w := set6 w 2 (geometry_msgs.force_z wrench) in
  let w := set6 w 3 (geometry_msgs.torque_x wrench) in
  let w := set6 w 4 (geometry_msgs.torque_y wrench) in
  let w := set6 w 5 (geometry_msgs.torque_z wrench) in
  let s := set_target_wrench w s in
  if negb (String.eqb (geometry_msgs.wrench_frame_id wrench)
                      (Base.m_robot_base_link (base s)))
  then set_target_wrench
         (Base.displayInBaseLink (base s) (m_target_wrench s)
                                 (geometry_msgs.wrench_frame_id wrench)) s
  else s.

(** targetFrameCallback; [now] is the reading of the clock, in ms. *)
Definition targetFrameCallback (now : Z) (target : geometry_msgs.PoseStamped)
           (s : State) : State :=
  if negb (String.eqb (geometry_msgs.pose_frame_id target)
                      (Base.m_robot_base_link (base s)))
  then
    let t := rclcpp.THROTTLE 3000 now (warn_last_logged s) in
    set_log (snd t) (if fst t then now :: warnings s else warnings s) s
  else
    let s :=
      set_target_frame
        (KDL.mkFrame
           (KDL.Quaternion (geometry_msgs.orientation_x target)
                           (geometry_msgs.orientation_y target)
                           (geometry_msgs.orientation_z target)
                           (geometry_msgs.orientation_w target))
           (KDL.mkVector (geometry_msgs.position_x target)
                         (geometry_msgs.position_y target)
                         (geometry_msgs.position_z target))) s in
    if negb (m_received_initial_frame s)
    then set_initial_frame (m_target_frame s) true s
    else s.


End Controller.
End HOCBFCartesianImpedanceController.

(* ------------------------------------------------------------------------- *)
(** ** cartesian_impedance_controller, the variant with the postural task *)

Module CartesianImpedanceController.
Import Eigen.

Record State := mkState {
  base : Base.State;
  m_target_frame : KDL.Frame;
  m_current_frame : KDL.Frame;
  m_target_wrench : Vector6D;
  warn_last_logged : Z;
  warnings : list Z }.

Definition set_target_frame (f : KDL.Frame) (s : State) : State :=
  mkState (base s) f (m_current_frame s) (m_target_wrench s)
          (warn_last_logged s) (warnings s).

Definition set_target_wrench (w : Vector6D) (s : State) : State :=
  mkState (base s) (m_target_frame s) (m_current_frame s) w
          (warn_last_logged s) (warnings s).

Definition set_log (last : Z) (log : list Z) (s : State) : State :=
  mkState (base s) (m_target_frame s) (m_current_frame s)
          (m_target_wrench s) last log.

(** KDL::Twist::operator()(i): vel for i = 0..2, rot for i = 3..5 *)
Definition Twist_to (t : KDL.Twist) : Vector6D :=
  mkVector6D (KDL.x (KDL.vel t)) (KDL.y (KDL.vel t)) (KDL.z (KDL.vel t))
             (KDL.x (KDL.rot t)) (KDL.y (KDL.rot t)) (KDL.z (KDL.rot t)).

(** computeMotionError *)
Definition computeMotionError (s : State) : Vector6D :=
  let error_frame_vel :=
    KDL.vminus (KDL.p (m_current_frame s)) (KDL.p (m_target_frame s)) in
  let error_frame_rot :=
    KDL.stimes (1 / 2)
      (KDL.vplus
         (KDL.vplus
            (KDL.cross (KDL.UnitX (KDL.M (m_target_frame s)))
                       (KDL.UnitX (KDL.M (m_current_frame s))))
            (KDL.cross (KDL.UnitY (KDL.M (m_target_frame s)))
                       (KDL.UnitY (KDL.M (m_current_frame s)))))
         (KDL.cross (KDL.UnitZ (KDL.M (m_target_frame s)))
                    (KDL.UnitZ (KDL.M (m_current_frame s))))) in
  Twist_to (KDL.mkTwist error_frame_vel error_frame_rot).

(** targetWrenchCallback *)
Definition targetWrenchCallback (wrench : geometry_msgs.WrenchStamped)
           (s : State) : State :=
  let w := m_target_wrench s in
  let w := set6 w 0 (geometry_msgs.force_x wrench) in
  let w := set6 w 1 (geometry_msgs.force_y wrench) in
  let w := set6 w 2 (geometry_msgs.force_z wrench) in
  let w := set6 w 3 (geometry_msgs.torque_x wrench) in
  let w := set6 w 4 (geometry_msgs.torque_y wrench) in
  let w := set6 w 5 (geometry_msgs.torque_z wrench) in
  set_target_wrench w s.

Section Controller.
Context {geo : KDL.Geometry}.

(** targetFrameCallback; [now] is the reading of the clock, in ms. *)
Definition targetFrameCallback (now : Z) (target : geometry_msgs.PoseStamped)
           (s : State) : State :=
  if negb (String.eqb (geometry_msgs.pose_frame_id target)
                      (Base.m_robot_base_link (base s)))
  then
    let t := rclcpp.THROTTLE 3000 now (warn_last_logged s) in
    set_log (snd t) (if fst t then now :: warnings s else warnings s) s
  else
    set_target_frame
      (KDL.mkFrame
         (KDL.Quaternion (geometry_msgs.orientation_x target)
                         (geometry_msgs.orientation_y target)
                         (geometry_msgs.orientation_z target)
                         (geometry_msgs.orientation_w target))
         (KDL.mkVector (geometry_msgs.position_x target)
                       (geometry_msgs.position_y target)
                       (geometry_msgs.position_z target))) s.

End Controller.
End CartesianImpedanceController.

(* ------------------------------------------------------------------------- *)
(** ** cartesian_impedance_controller, the variant without stiffness
       parameters (the third translation unit) *)

Module CartesianImpedanceControllerFZI.
Import Eigen.

Record State := mkState {
  base : Base.State;
  m_target_frame : KDL.Frame;
  m_target_wrench : Vector6D;
  warn_last_logged : Z;
  warnings : list Z }.

Definition set_target_frame (f : KDL.Frame) (s : State) : State :=
  mkState (base s) f (m_target_wrench s) (warn_last_logged s) (warnings s).

Definition set_target_wrench (w : Vector6D) (s : State) : State :=
  mkState (base s) (m_target_frame s) w (warn_last_logged s) (warnings s).

Definition set_log (last : Z) (log : list Z) (s : State) : State :=
  mkState (base s) (m_target_frame s) (m_target_wrench s) last log.

Section Controller.
Context {geo : KDL.Geometry} {kin : Base.Kinematics}.

(** computeMotionError *)
Definition computeMotionError (s : State) : Vector6D :=
  let m_current_frame :=
    Base.fk_JntToCart (Base.m_joint_positions (base s)) in
  let error_kdl_M :=
    KDL.rmul (KDL.M (m_target_frame s))
             (KDL.Inverse (KDL.M m_current_frame)) in
  let error_kdl_p :=
    KDL.vminus (KDL.p (m_target_frame s)) (KDL.p m_current_frame) in
  let angle := fst (KDL.GetRotAngle error_kdl_M) in
  let rot_axis := snd (KDL.GetRotAngle error_kdl_M) in
  let rot_axis := KDL.vtimes rot_axis angle in
  mkVector6D (KDL.x error_kdl_p) (KDL.y error_kdl_p) (KDL.z error_kdl_p)
             (KDL.x rot_axis) (KDL.y rot_axis) (KDL.z rot_axis).

(** targetWrenchCallback *)
Definition targetWrenchCallback (wrench : geometry_msgs.WrenchStamped)
           (s : State) : State :=
  let w := m_target_wrench s in
  let w := set6 w 0 (geometry_msgs.force_x wrench) in
  let w := set6 w 1 (geometry_msgs.force_y wrench) in
  let w := set6 w 2 (geometry_msgs.force_z wrench) in
  let w := set6 w 3 (geometry_msgs.torque_x wrench) in
  let w := set6 w 4 (geometry_msgs.torque_y wrench) in
  let w := set6 w 5 (geometry_msgs.torque_z wrench) in
  set_target_wrench w s.

(** targetFrameCallback; [now] is the reading of the clock, in ms. *)
Definition targetFrameCallback (now : Z) (target : geometry_msgs.PoseStamped)
           (s : State) : State :=
  if negb (String.eqb (geometry_msgs.pose_frame_id target)
                      (Base.m_robot_base_link (base s)))
  then
    let t := rclcpp.THROTTLE 3000 now (warn_last_logged s) in
    set_log (snd t) (if fst t then now :: warnings s else warnings s) s
  else
    set_target_frame
      (KDL.mkFrame
         (KDL.Quaternion (geometry_msgs.orientation_x target)
                         (geometry_msgs.orientation_y target)
                         (geometry_msgs.orientation_z target)
                         (geometry_msgs.orientation_w target))
         (KDL.mkVector (geometry_msgs.position_x target)
                       (geometry_msgs.position_y target)
                       (geometry_msgs.position_z target))) s.

End Controller.
End CartesianImpedanceControllerFZI.

(* ------------------------------------------------------------------------- *)
(** ** Reference instances of the interfaces, and example states *)

Module Reference.

(** A geometry that meets [KDL.GeometrySpec]: the textbook formulas with
    the threshold 1e-6 of KDL. *)
Definition Normalize (v : KDL.Vector) : R * KDL.Vector :=
  if Rlt_dec (KDL.Norm v) (1 / 1000000)
  then (KDL.Norm v, KDL.mkVector 1 0 0)
  else (KDL.Norm v, KDL.vtimes v (/ KDL.Norm v)).

Definition GetRotAngle (A : KDL.Rotation) : R * KDL.Vector :=
  (acos (clamp ((KDL.d0 A + KDL.d4 A + KDL.d8 A - 1) / 2) (-1) 1),
   snd (Normalize (KDL.mkVector (KDL.d7 A - KDL.d5 A)
                                (KDL.d2 A - KDL.d6 A)
                                (KDL.d3 A - KDL.d1 A)))).

Definition Quaternion (x y z w : R) : KDL.Rotation :=
  KDL.mkRotation
    (w * w + x * x - y * y - z * z) (2 * x * y - 2 * w * z)
    (2 * x * z + 2 * w * y)
    (2 * x * y + 2 * w * z) (w * w - x * x + y * y - z * z)
    (2 * y * z - 2 * w * x)
    (2 * x * z - 2 * w * y) (2 * y * z + 2 * w * x)
    (w * w - x * x - y * y + z * z).

Definition geometry : KDL.Geometry :=
  KDL.Build_Geometry GetRotAngle Normalize Quaternion.

(** A six-joint arm in a pose where the Jacobian is the identity, with the
    mass matrix 2 I, no gravity and no Coriolis torque, and every segment
    frame equal to the base frame. *)
Definition frame0 : KDL.Frame :=
  KDL.mkFrame KDL.Rotation_Identity KDL.Vector_Zero.

Definition kinematics : Base.Kinematics :=
  Base.Build_Kinematics (fun _ => Eigen.Identity 6) (fun _ => frame0)
                        (fun _ _ => frame0).

Definition dynamics : HOCBFCartesianImpedanceController.Dynamics :=
  HOCBFCartesianImpedanceController.Build_Dynamics
    (fun _ => Eigen.asDiagonal [2; 2; 2; 2; 2; 2])
    (fun _ => Eigen.Zero 6) (fun _ _ => Eigen.Zero 6).

(** A filter that lets the torque through and logs nothing. *)
Definition filter : HOCBFCartesianImpedanceController.SafetyFilter :=
  HOCBFCartesianImpedanceController.Build_SafetyFilter
    (fun c => (HOCBFCartesianImpedanceController.arg_tau_nominal c, [])).

End Reference.

Module Examples.
Import Base.

Definition joints6 : list string :=
  ["joint1"; "joint2"; "joint3"; "joint4"; "joint5"; "joint6"]%string.

(** A configured six-joint base class at rest. *)
Definition base6 : Base.State :=
  Base.mkState ["effort"%string] joints6
               (repeat (Finite 87) 6) (repeat (Finite 0) 6)
               (repeat (Finite 0) 6) (Eigen.Zero 6) (Eigen.Zero 6)
               (Eigen.Identity 6) "base_link" "tool0" (Eigen.Zero 6).

(** Two joints, the second one continuous; the first torque is beyond its
    limit. *)
Definition base_two : Base.State :=
  Base.mkState ["effort"%string] ["joint1"; "joint2"]%string
               [Finite 10; NaN] [Finite 25; Finite 3]
               [Finite 0; Finite 0] [0; 0] [0; 0] [] "base_link" "tool0"
               [0; 0].

(** Two joints with the limit 10; the torque of the first one is NaN. *)
Definition base_nan : Base.State :=
  Base.mkState ["effort"%string] ["joint1"; "joint2"]%string
               [Finite 10; Finite 10] [NaN; Finite 1]
               [Finite 0; Finite 0] [0; 0] [0; 0] [] "base_link" "tool0"
               [0; 0].

(** One joint whose URDF effort limit is -1, with the torque 0. *)
Definition base_negative : Base.State :=
  Base.mkState ["effort"%string] ["joint1"%string]
               [Finite (-1)] [Finite 0] [Finite 0] [0] [0] []
               "base_link" "tool0" [0].

(** The safety-filtered controller with the target 2 units ahead of the
    end effector along x. *)
Definition hocbf0 : HOCBFCartesianImpedanceController.State :=
  HOCBFCartesianImpedanceController.mkState
    base6 6 (Eigen.Zero 6) true true
    (Eigen.asDiagonal [500; 500; 500; 50; 50; 50])
    (Eigen.asDiagonal [2 * sqrt 500; 2 * sqrt 500; 2 * sqrt 500;
                       2 * sqrt 50; 2 * sqrt 50; 2 * sqrt 50])
    (KDL.mkFrame KDL.Rotation_Identity (KDL.mkVector 2 0 0))
    Reference.frame0 Reference.frame0 false Eigen.Zero6 0 0%Z [].

(** The controller with the postural task, target one unit ahead along x. *)
Definition impedance0 : CartesianImpedanceController.State :=
  CartesianImpedanceController.mkState
    base6 (KDL.mkFrame KDL.Rotation_Identity (KDL.mkVector 1 0 0))
    Reference.frame0 Eigen.Zero6 0%Z [].

(** A wrench of 1 N along x, given in the frame of the tool. *)
Definition wrench_tool : geometry_msgs.WrenchStamped :=
  geometry_msgs.mkWrenchStamped "tool0" 1 0 0 0 0 0.

End Examples.

(* ------------------------------------------------------------------------- *)
(** ** Vocabulary of the properties *)

Module Limiter.
Import Base.

(** The arrays of the configured controller all have one entry per joint. *)
Definition sized (s : State) : Prop :=
  length (m_efforts s) = length (m_joint_names s) /\
  length (m_joint_effort_limits s) = length (m_joint_names s) /\
  length (m_joint_cmd_eff_handles s) = length (m_joint_names s).

(** on_configure accepts the effort interface only, and at least one. *)
Definition configured (s : State) : Prop :=
  sized s /\ In HW_IF_EFFORT (m_cmd_interface_types s).

(** What is constant across writeJointEffortCmds. *)
Definition same_config (s s' : State) : Prop :=
  m_cmd_interface_types s' = m_cmd_interface_types s /\
  m_joint_names s' = m_joint_names s /\
  m_joint_effort_limits s' = m_joint_effort_limits s.

(** The saturation of joint i. *)
Definition sat_at (s : State) (i : nat) (e : double) : double :=
  saturate e (nth i (m_joint_effort_limits s) NaN).

(** The number of passes: one per command interface of type effort. *)
Definition passes (types : list string) : nat :=
  length (filter (fun t => String.eqb t HW_IF_EFFORT) types).

(** The body of the outer loop of writeJointEffortCmds. *)
Definition types_step (s : State) (type : string) : State :=
  if String.eqb type HW_IF_EFFORT
  then fold_left write_joint (seq 0 (length (m_joint_names s))) s
  else s.

(** The torque [tau], clamped to [-l, +l], is [w]: unchanged inside the
    interval, exactly +l above it and exactly -l below it. *)
Definition clamped_to (tau : double) (l : R) (w : double) : Prop :=
  (forall t, tau = Finite t -> - l <= t <= l -> w = tau) /\
  (tau = PosInf \/ (exists t, tau = Finite t /\ l < t) -> w = Finite l) /\
  (tau = NegInf \/ (exists t, tau = Finite t /\ t < - l) ->
   w = Finite (- l)).

End Limiter.

Module Torque.
Import Eigen HOCBFCartesianImpedanceController.

(** The 6x6 matrix a I. *)
Definition scalar6 (a : R) : MatrixND := asDiagonal [a; a; a; a; a; a].

(** The operational-space inertia of the spec: (J M^-1 J^T)^-1. *)
Definition operational_space_inertia (J M : MatrixND) : MatrixND :=
  inverse (mmul (mmul J (inverse M)) (transpose J)).


(** The dynamics solver with another Coriolis routine. *)
Definition with_Coriolis (dyn : Dynamics)
           (cor : VectorND -> VectorND -> VectorND) : Dynamics :=
  Build_Dynamics (@JntToMass dyn) (@JntToGravity dyn) cor.

End Torque.

Module Callbacks.

(** The frame that a pose message describes. *)
Definition pose_frame {geo : KDL.Geometry}
           (target : geometry_msgs.PoseStamped) : KDL.Frame :=
  KDL.mkFrame
    (KDL.Quaternion (geometry_msgs.orientation_x target)
                    (geometry_msgs.orientation_y target)
                    (geometry_msgs.orientation_z target)
                    (geometry_msgs.orientation_w target))
    (KDL.mkVector (geometry_msgs.position_x target)
                  (geometry_msgs.position_y target)
                  (geometry_msgs.position_z target)).

(** The six scalars of a wrench message. *)
Definition wrench_vector (wrench : geometry_msgs.WrenchStamped)
  : Eigen.Vector6D :=
  Eigen.mkVector6D
    (geometry_msgs.force_x wrench) (geometry_msgs.force_y wrench)
    (geometry_msgs.force_z wrench) (geometry_msgs.torque_x wrench)
    (geometry_msgs.torque_y wrench) (geometry_msgs.torque_z wrench).

(** The log of the throttled warning after one more attempt at [now]. *)
Definition warned (now last : Z) (log : list Z) : list Z :=
  if (last + 3000 <=? now)%Z then now :: log else log.

Definition warned_last (now last : Z) : Z :=
  if (last + 3000 <=? now)%Z then now else last.

End Callbacks.

(* ------------------------------------------------------------------------- *)
(** ** More of the controllers: the other error functions, and runs of
       messages *)

Module HOCBFErrors.
Import Eigen HOCBFCartesianImpedanceController.

Section Controller.
Context {geo : KDL.Geometry}.



End Controller.
End HOCBFErrors.

Module Subscription.
Import HOCBFCartesianImpedanceController.

(** What the two subscriptions of the safety-filtered controller deliver:
    a pose on /target_frame, taken from the queue when the clock reads
    [now], or a wrench on /target_wrench. *)
Inductive Message :=
| Pose (now : Z) (target : geometry_msgs.PoseStamped)
| Wrench (wrench : geometry_msgs.WrenchStamped).

Section Controller.
Context {geo : KDL.Geometry} {kin : Base.Kinematics}.

Definition deliver (s : State) (m : Message) : State :=
  match m with
  | Pose now target => targetFrameCallback now target s
  | Wrench wrench => targetWrenchCallback wrench s
  end.

(** The callbacks run one after the other, in the order of arrival. *)
Definition run (ms : list Message) (s : State) : State :=
  fold_left deliver ms s.

End Controller.

(** Whether targetFrameCallback accepts the pose. *)
Definition accepted (s : State) (target : geometry_msgs.PoseStamped) : bool :=
  String.eqb (geometry_msgs.pose_frame_id target)
             (Base.m_robot_base_link (base s)).

(** The accepted poses of a run, in the order of arrival. *)
Fixpoint accepted_poses (s : State) (ms : list Message)
  : list geometry_msgs.PoseStamped :=
  match ms with
  | [] => []
  | Pose _ target :: ms' =>
      if accepted s target then target :: accepted_poses s ms'
      else accepted_poses s ms'
  | Wrench _ :: ms' => accepted_poses s ms'
  end.

(** Successive entries of the log of warnings, latest first, are at least
    3000 ms apart. *)
Fixpoint spaced (log : list Z) : Prop :=
  match log with
  | a :: ((b :: _) as log') => (b + 3000 <= a)%Z /\ spaced log'
  | _ => True
  end.

(** The invariant of the log: spaced, and no entry later than the last
    print that the throttle remembers. *)
Definition log_ok (s : State) : Prop :=
  spaced (warnings s) /\
  forall t, In t (warnings s) -> (t <= warn_last_logged s)%Z.

End Subscription.

Module Frames.
Import KDL.

(** The matrix of a rotation: its transpose is its inverse. *)
Definition orthonormal (A : Rotation) : Prop :=
  rmul (Inverse A) A = Rotation_Identity /\
  rmul A (Inverse A) = Rotation_Identity.

(** The 6x6 tensor with k on the translational and c on the rotational
    diagonal. *)
Definition isotropic (k c : R) : Eigen.MatrixND :=
  Eigen.asDiagonal [k; k; k; c; c; c].

End Frames.

(* ------------------------------------------------------------------------- *)
(** ** effort_controller_base: the lifecycle of EffortControllerBase *)

Module Lifecycle.
Import Eigen Base.

Inductive CallbackReturn := SUCCESS | FAILURE | ERROR.

(** hardware_interface::HW_IF_POSITION, HW_IF_VELOCITY *)
Definition HW_IF_POSITION : string := "position".
Definition HW_IF_VELOCITY : string := "velocity".

(** The parameters of the node that on_configure reads. *)
Record Parameters := mkParameters {
  ik_solver : string;
  robot_description : string;
  robot_base_link : string;
  end_effector_link : string;
  joints : list string;
  command_interfaces : list string }.

(** A parsed urdf::Model: its joints, whether kdl_parser builds a tree
    from it, and whether that tree has a chain between two links. *)
Record Model := mkModel {
  getJoint : string -> option Joint;
  treeFromUrdfModel : bool;
  getChain : string -> string -> bool }.

(** What the framework provides: the plugin loader (whether the solver of a
    name can be created), the URDF parser, and
    controller_interface::get_ordered_interfaces on the loaned command and
    state interfaces (the interfaces it finds for the joints and the
    interface type, in the order of the joints, as the values they hold). *)
Class Environment := {
  createSharedInstance : string -> bool;
  initString : string -> option Model;
  ordered_command_interfaces : list string -> string -> list double;
  ordered_state_interfaces : list string -> string -> list R
}.

(** The members of the lifecycle besides those of [Base.State]. *)
Record Flags := mkFlags {
  m_initialized : bool;
  m_configured : bool;
  m_active : bool;
  m_robot_description : string;
  m_joint_state_vel_handles : list R }.

Record State := mkState { core : Base.State; flags : Flags }.

Definition set_core (c : Base.State) (s : State) : State :=
  mkState c (flags s).

(** command_interface_configuration: the names it returns *)
Definition command_interface_configuration (s : State) : list string :=
  flat_map
    (fun type =>
       map (fun joint_name => (joint_name ++ ("/" ++ type))%string)
           (m_joint_names (core s)))
    (m_cmd_interface_types (core s)).

(** state_interface_configuration: the names it returns; the loop is over
    the command interface types here, too. *)
Definition state_interface_configuration (s : State) : list string :=
  flat_map
    (fun type =>
       map (fun joint_name => (joint_name ++ ("/" ++ type))%string)
           (m_joint_names (core s)))
    (m_cmd_interface_types (core s)).

(** on_init *)
Definition on_init (s : State) : CallbackReturn * State :=
  if negb (m_initialized (flags s))
  then (SUCCESS,
        mkState (core s)
                (mkFlags true (m_configured (flags s)) (m_active (flags s))
                         (m_robot_description (flags s))
                         (m_joint_state_vel_handles (flags s))))
  else (SUCCESS, s).

(** The result of on_configure: SUCCESS with the members it leaves, or
    ERROR.  After ERROR some members are partly written (the effort limits
    up to the joint that the URDF does not know); they are all written
    again by the next on_configure before anything reads them, and the
    model does not give them. *)
Inductive Configure := Configured (s : State) | NotConfigured.

(** JntArray::resize keeps the entries it has and fills up with zeros. *)
Definition resize (n : nat) (v : VectorND) : VectorND :=
  firstn n v ++ repeat 0 (n - length v).

(** The loop over the command interface types: all must be effort. *)
Fixpoint all_effort (types : list string) : bool :=
  match types with
  | [] => true
  | type :: rest =>
      if negb (String.eqb type HW_IF_EFFORT) then false else all_effort rest
  end.

Definition is_empty {A : Type} (l : list A) : bool :=
  match l with [] => true | _ => false end.

Section WithEnvironment.
Context {env : Environment} {kin : Kinematics}.

(** on_configure.  The solvers it creates are the interfaces [Kinematics];
    the members that only they read (solver iterations, error scale, the
    position limits) are left out.  The last statement, updateJointStates,
    reads state interfaces that are loaned in on_activate only; the model
    reads 0 where there is none. *)
Definition on_configure (p : Parameters) (s : State) : Configure :=
  if m_configured (flags s) then Configured s
  else if negb (createSharedInstance (ik_solver p)) then NotConfigured
  else if String.eqb (robot_description p) EmptyString then NotConfigured
  else if String.eqb (robot_base_link p) EmptyString then NotConfigured
  else if String.eqb (end_effector_link p) EmptyString then NotConfigured
  else
    match initString (robot_description p) with
    | None => NotConfigured
    | Some robot_model =>
        if negb (treeFromUrdfModel robot_model) then NotConfigured
        else if negb (getChain robot_model (robot_base_link p)
                               (end_effector_link p))
        then NotConfigured
        else if is_empty (joints p) then NotConfigured
        else
          match parse_effort_limits (getJoint robot_model) (joints p) with
          | None => NotConfigured
          | Some limits =>
              if is_empty (command_interfaces p) then NotConfigured
              else if negb (all_effort (command_interfaces p))
              then NotConfigured
              else
                let n := length (joints p) in
                let c :=
                  Base.mkState
                    (command_interfaces p) (joints p) limits
                    (repeat (Finite 0) n)
                    (m_joint_cmd_eff_handles (core s))
                    (m_joint_state_pos_handles (core s))
                    (resize n (m_joint_positions (core s)))
                    (m_jacobian (core s))
                    (robot_base_link p) (end_effector_link p)
                    (ik_positions (core s)) in
                Configured
                  (mkState (updateJointStates c)
                           (mkFlags (m_initialized (flags s)) true
                                    (m_active (flags s))
                                    (robot_description p)
                                    (m_joint_state_vel_handles (flags s))))
          end
    end.

(** on_activate.  get_ordered_interfaces appends what it finds to the
    vector of handles and succeeds when the vector then has one handle per
    joint. *)
Definition on_activate (s : State) : CallbackReturn * State :=
  if m_active (flags s) then (SUCCESS, s)
  else
    let names := m_joint_names (core s) in
    let cmd :=
      m_joint_cmd_eff_handles (core s)
      ++ ordered_command_interfaces names HW_IF_EFFORT in
    let s := set_core (set_cmd_eff_handles cmd (core s)) s in
    if negb (Nat.eqb (length names) (length cmd)) then (ERROR, s)
    else
      let pos :=
        m_joint_state_pos_handles (core s)
        ++ ordered_state_interfaces names HW_IF_POSITION in
      let s :=
        set_core
          (Base.mkState
             (m_cmd_interface_types (core s)) (m_joint_names (core s))
             (m_joint_effort_limits (core s)) (m_efforts (core s))
             (m_joint_cmd_eff_handles (core s)) pos
             (m_joint_positions (core s)) (m_jacobian (core s))
             (m_robot_base_link (core s)) (m_end_effector_link (core s))
             (ik_positions (core s))) s in
      if negb (Nat.eqb (length names) (length pos)) then (ERROR, s)
      else
        let vel :=
          m_joint_state_vel_handles (flags s)
          ++ ordered_state_interfaces names HW_IF_VELOCITY in
        let s :=
          mkState (core s)
                  (mkFlags (m_initialized (flags s)) (m_configured (flags s))
                           (m_active (flags s))
                           (m_robot_description (flags s)) vel) in
        if negb (Nat.eqb (length names) (length vel)) then (ERROR, s)
        else
          let c := computeJointEffortCmds Zero6 (core s) in
          let c := writeJointEffortCmds c in
          (SUCCESS,
           mkState c
                   (mkFlags (m_initialized (flags s))
                            (m_configured (flags s)) true
                            (m_robot_description (flags s))
                            (m_joint_state_vel_handles (flags s)))).

End WithEnvironment.

(** on_deactivate *)
Definition on_deactivate (s : State) : CallbackReturn * State :=
  if m_active (flags s)
  then
    (SUCCESS,
     mkState
       (Base.mkState
          (m_cmd_interface_types (core s)) (m_joint_names (core s))
          (m_joint_effort_limits (core s)) (m_efforts (core s))
          [] []
          (m_joint_positions (core s)) (m_jacobian (core s))
          (m_robot_base_link (core s)) (m_end_effector_link (core s))
          (ik_positions (core s)))
       (mkFlags (m_initialized (flags s)) (m_configured (flags s)) false
                (m_robot_description (flags s)) []))
  else (SUCCESS, s).

(** Every effort limit is NaN or a real that is not negative. *)
Definition limits_ok (c : Base.State) : Prop :=
  Forall (fun L => L = NaN \/ exists l, L = Finite l /\ 0 <= l)
         (m_joint_effort_limits c).

End Lifecycle.

(* ------------------------------------------------------------------------- *)
(** ** hocbf_cartesian_impedance_controller: the lifecycle *)

Module HOCBFLifecycle.
Import Eigen HOCBFCartesianImpedanceController.

(** The parameters that on_init declares and on_configure reads. *)
Record Parameters := mkParameters {
  ft_sensor_ref_link : string;
  nullspace_stiffness : R;
  stiffness_trans_x : R;
  stiffness_trans_y : R;
  stiffness_trans_z : R;
  stiffness_rot_x : R;
  stiffness_rot_y : R;
  stiffness_rot_z : R }.

(** on_init: the defaults of the parameters *)
Definition on_init_defaults : Parameters :=
  mkParameters EmptyString 0 500 500 500 50 50 50.

(** Base::robotChainContains is not among the sources; it is an
    interface. *)
Class Chain := {
  robotChainContains : string -> bool
}.

(** The members of the controller: those of the control law, those of the
    lifecycle of the base class, and those that only the lifecycle
    functions write. *)
Record State := mkState {
  controller : HOCBFCartesianImpedanceController.State;
  lifecycle : Lifecycle.Flags;
  m_ft_sensor_ref_link : string;
  m_null_space_stiffness : R;
  m_null_space_damping : R;
  m_identity : MatrixND;
  m_old_target_frame : KDL.Frame;
  m_q_starting_pose : VectorND;
  m_tau_old : VectorND;
  m_old_rot_error : VectorND;
  m_old_vel_error : VectorND }.

(** The base class part of the controller. *)
Definition base_part (s : State) : Lifecycle.State :=
  Lifecycle.mkState (base (controller s)) (lifecycle s).

Inductive Configure := Configured (s : State) | NotConfigured.

Section Controller.
Context {env : Lifecycle.Environment} {kin : Base.Kinematics}
        {chain : Chain}.

(** on_configure; the subscriptions and the publisher that it creates at
    the end are the callbacks and the published log of computeTorque. *)
Definition on_configure (bp : Lifecycle.Parameters) (p : Parameters)
           (s : State) : Configure :=
  match Lifecycle.on_configure bp (base_part s) with
  | Lifecycle.NotConfigured => NotConfigured
  | Lifecycle.Configured b =>
      if negb (robotChainContains (ft_sensor_ref_link p)) then NotConfigured
      else
        let tmp :=
          [ stiffness_trans_x p; stiffness_trans_y p; stiffness_trans_z p;
            stiffness_rot_x p; stiffness_rot_y p; stiffness_rot_z p ] in
        let m_cartesian_stiffness := asDiagonal tmp in
        let tmp := map (fun k => 2 * sqrt k) tmp in
        let m_cartesian_damping := asDiagonal tmp in
        let c := controller s in
        Configured
          (mkState
             (HOCBFCartesianImpedanceController.mkState
                (Lifecycle.core b) (m_joint_number c)
                (m_joint_velocities c) (m_compensate_gravity c)
                (m_compensate_coriolis c)
                m_cartesian_stiffness m_cartesian_damping
                (m_target_frame c) (m_current_frame c) (m_initial_frame c)
                (m_received_initial_frame c) (m_target_wrench c)
                (m_last_time c) (warn_last_logged c) (warnings c))
             (Lifecycle.flags b)
             (ft_sensor_ref_link p)
             (nullspace_stiffness p)
             (2 * sqrt (nullspace_stiffness p))
             (Identity (m_joint_number c))
             (m_old_target_frame s) (m_q_starting_pose s) (m_tau_old s)
             (m_old_rot_error s) (m_old_vel_error s))
  end.

(** on_activate; [now] is what the clock of the node returns.  The return
    value of Base::on_activate is not looked at. *)
Definition on_activate (now : R) (s : State)
  : Lifecycle.CallbackReturn * State :=
  let b := snd (Lifecycle.on_activate (base_part s)) in
  let core := Base.updateJointStates (Lifecycle.core b) in
  let c := set_base core (controller s) in
  let c :=
    set_current_frame (Base.fk_JntToCart (Base.m_joint_positions core)) c in
  let c := set_target_frame (m_current_frame c) c in
  let c := set_target_wrench Zero6 c in
  let c := set_last_time now c in
  (Lifecycle.SUCCESS,
   mkState c (Lifecycle.flags b) (m_ft_sensor_ref_link s)
           (m_null_space_stiffness s) (m_null_space_damping s)
           (m_identity s)
           (m_current_frame c)
           (Base.m_joint_positions core)
           (Zero (m_joint_number c)) (Zero 3) (Zero (m_joint_number c))).

End Controller.
End HOCBFLifecycle.

Module AtRest.
Import KDL.


End AtRest.

(* ------------------------------------------------------------------------- *)
(** ** cartesian_impedance_controller with the postural task: the control
       law *)

Module ImpedanceLaw.
Import Eigen CartesianImpedanceController.

(** std::round: the nearest integer, halfway cases away from zero *)
Definition round (x : R) : R :=
  if Rle_dec 0 x then IZR (Zfloor (x + 1 / 2))
  else - IZR (Zfloor (- x + 1 / 2)).

(** pseudoInverse of pseudo_inversion.h, which is not among the sources *)
Class PseudoInversion := {
  pseudoInverse : MatrixND -> MatrixND
}.

Fixpoint msub (A B : MatrixND) : MatrixND :=
  match A, B with
  | r :: A', q :: B' => vsub r q :: msub A' B'
  | _, _ => []
  end.

(** - A *)
Definition mopp (A : MatrixND) : MatrixND := map (map Ropp) A.

(** - v *)
Definition vopp (v : VectorND) : VectorND := map Ropp v.

(** The members that computeTorque and computeForceError read or write
    besides those of [CartesianImpedanceController.State];
    [hand_frame_control] is the parameter of that name. *)
Record State := mkState {
  controller : CartesianImpedanceController.State;
  m_joint_number : nat;
  m_joint_velocities : VectorND;
  m_alpha : R;
  m_old_vel_error : VectorND;
  m_cartesian_stiffness : MatrixND;
  m_cartesian_damping : MatrixND;
  m_null_space_stiffness : R;
  m_null_space_damping : R;
  m_identity : MatrixND;
  m_q_starting_pose : VectorND;
  m_with_postural_task : bool;
  hand_frame_control : bool;
  m_ft_sensor_wrench : Vector6D;
  m_new_ft_sensor_ref : string }.

(** q_dot(i) = std::round(q_dot(i) * 1000) / 1000 *)
Definition round_entry (q_dot : VectorND) (i : nat) : VectorND :=
  Base.assign i (round (nth i q_dot 0 * 1000) / 1000) q_dot.

Section Controller.
Context {kin : Base.Kinematics} {pinv : PseudoInversion}.

(** computeForceError *)
Definition computeForceError (s : State) : Vector6D :=
  let target_wrench :=
    if hand_frame_control s
    then Base.displayInBaseLink
           (base (controller s)) (m_target_wrench (controller s))
           (Base.m_end_effector_link (base (controller s)))
    else m_target_wrench (controller s) in
  vadd6 (Base.displayInBaseLink (base (controller s)) (m_ft_sensor_wrench s)
                                (m_new_ft_sensor_ref s))
        target_wrench.

(** computeTorque: the torque it returns and the members it leaves.  The
    seven assignments that round the velocity are for the seven joints of
    the arm; for an index that the vector does not have the model changes
    nothing. *)
Definition computeTorque (s : State) : VectorND * State :=
  let q_pos := Base.m_joint_positions (base (controller s)) in
  let current_frame := Base.fk_JntToCart q_pos in
  let jac := Base.JntToJac q_pos in
  let jac_tran_pseudo_inverse := pseudoInverse (transpose jac) in
  let q := q_pos in
  let q_dot := m_joint_velocities s in
  let c :=
    CartesianImpedanceController.mkState
      (Base.set_jacobian jac (base (controller s)))
      (m_target_frame (controller s)) current_frame
      (m_target_wrench (controller s))
      (warn_last_logged (controller s)) (warnings (controller s)) in
  let motion_error := computeMotionError c in
  let q_dot :=
    vadd (vscale (m_alpha s) q_dot)
         (vscale (1 - m_alpha s) (m_old_vel_error s)) in
  let q_dot := fold_left round_entry (seq 0 7) q_dot in
  let tau_task :=
    mvmul (transpose jac)
          (vsub (mvmul (mopp (m_cartesian_stiffness s)) (coeffs motion_error))
                (mvmul (m_cartesian_damping s) (mvmul jac q_dot))) in
  let q_null_space := m_q_starting_pose s in
  let tau_null :=
    mvmul (msub (m_identity s) (mmul (transpose jac) jac_tran_pseudo_inverse))
          (vsub (vscale (m_null_space_stiffness s)
                        (vadd (vopp q) q_null_space))
                (vscale (m_null_space_damping s) q_dot)) in
  (vadd tau_task
        (vscale (if m_with_postural_task s then 1 else 0) tau_null),
   mkState c (m_joint_number s) (m_joint_velocities s) (m_alpha s) q_dot
           (m_cartesian_stiffness s) (m_cartesian_damping s)
           (m_null_space_stiffness s) (m_null_space_damping s)
           (m_identity s) (m_q_starting_pose s) (m_with_postural_task s)
           (hand_frame_control s) (m_ft_sensor_wrench s)
           (m_new_ft_sensor_ref s)).

End Controller.
End ImpedanceLaw.

(* ------------------------------------------------------------------------- *)
(** ** More reference instances and example states *)

Module Bench.
Import Base.

(** A URDF in which every joint is revolute with the effort limit 87, and
    a hardware that loans one interface of every type per joint. *)
Definition model : Lifecycle.Model :=
  Lifecycle.mkModel
    (fun _ => Some (mkJoint REVOLUTE (Finite 3) (Finite (-3)) (Finite 87)))
    true (fun _ _ => true).

Definition environment : Lifecycle.Environment :=
  Lifecycle.Build_Environment
    (fun _ => true) (fun _ => Some model)
    (fun names _ => map (fun _ => Finite 0) names)
    (fun names _ => map (fun _ => 0) names).

Definition chain : HOCBFLifecycle.Chain :=
  HOCBFLifecycle.Build_Chain (fun _ => true).

Definition pseudo_inversion : ImpedanceLaw.PseudoInversion :=
  ImpedanceLaw.Build_PseudoInversion Eigen.transpose.

Definition parameters : Lifecycle.Parameters :=
  Lifecycle.mkParameters "forward_dynamics" "<robot/>" "base_link" "tool0"
                         Examples.joints6 ["effort"%string].


Definition inactive : Lifecycle.State :=
  Lifecycle.mkState
    (Base.mkState ["effort"%string] Examples.joints6
                  (repeat (Finite 87) 6) (repeat (Finite 0) 6) [] []
                  (Eigen.Zero 6) (Eigen.Identity 6) "base_link" "tool0"
                  (Eigen.Zero 6))
    (Lifecycle.mkFlags true true false "<robot/>" []).




Definition hocbf_lifecycle : HOCBFLifecycle.State :=
  HOCBFLifecycle.mkState
    (HOCBFCartesianImpedanceController.set_base
       (Lifecycle.core inactive) Examples.hocbf0)
    (Lifecycle.flags inactive) EmptyString 0 0 [] Reference.frame0 [] [] [] [].

(** The controller with the postural task, its end effector half a turn
    about x away from the target orientation. *)
Definition impedance_half_turn : CartesianImpedanceController.State :=
  CartesianImpedanceController.mkState
    Examples.base6 Reference.frame0
    (KDL.mkFrame
       (KDL.mkRotation 1 (Ropp 0) (Ropp 0) 0 (Ropp 1) (Ropp 0)
                       0 (Ropp 0) (Ropp 1))
       KDL.Vector_Zero)
    Eigen.Zero6 0%Z [].

(** The controller with the postural task at its starting pose, with a
    target wrench and no contact. *)
Definition impedance_law : ImpedanceLaw.State :=
  ImpedanceLaw.mkState
    (CartesianImpedanceController.mkState
       Examples.base6 Reference.frame0 Reference.frame0
       (Eigen.mkVector6D 0 0 5 0 0 0) 0%Z [])
    6 (Eigen.Zero 6) (9 / 10) (Eigen.Zero 6)
    (Eigen.asDiagonal [500; 500; 500; 50; 50; 50])
    (Eigen.asDiagonal [2 * sqrt 500; 2 * sqrt 500; 2 * sqrt 500;
                       2 * sqrt 50; 2 * sqrt 50; 2 * sqrt 50])
    10 (2 * sqrt 10) (Eigen.Identity 6) (Eigen.Zero 6) true true
    Eigen.Zero6 "tool0".

(** Two poses in a wrong frame one second apart, and a wrench. *)
Definition pose_wrong : geometry_msgs.PoseStamped :=
  geometry_msgs.mkPoseStamped "world" 0 0 1 0 0 0 1.

Definition messages : list Subscription.Message :=
  [ Subscription.Pose 5000 pose_wrong; Subscription.Pose 6000 pose_wrong;
    Subscription.Wrench Examples.wrench_tool ].

End Bench.

(* ------------------------------------------------------------------------- *)
(** * Properties *)

(** ** The effort limiter *)

Section EffortLimiter.
Import Base Limiter.

Lemma length_assign {A : Type} (i : nat) (a : A) (v : list A) :
  length (assign i a v) = length v.
Proof.
  revert i; induction v as [|b v IH]; intros [|i]; simpl; auto.
Qed.

Lemma nth_assign_same {A : Type} (i : nat) (a d : A) (v : list A) :
  (i < length v)%nat -> nth i (assign i a v) d = a.
Proof.
  revert i; induction v as [|b v IH]; intros [|i] Hi; simpl in *;
    try lia; auto.
  apply IH; lia.
Qed.

Lemma nth_assign_other {A : Type} (i j : nat) (a d : A) (v : list A) :
  i <> j -> nth j (assign i a v) d = nth j v d.
Proof.
  revert i j; induction v as [|b v IH]; intros [|i] [|j] Hij; simpl;
    try congruence; auto.
Qed.

Lemma write_joint_sized (s : State) (i : nat) :
  sized s -> sized (write_joint s i) /\ same_config s (write_joint s i).
Proof.
  unfold sized, same_config, write_joint; simpl.
  rewrite !length_assign. intuition.
Qed.

(** One pass over the joints listed in [l] saturates exactly those. *)
Lemma joints_pass (l : list nat) :
  forall s, sized s -> NoDup l ->
    (forall i, In i l -> (i < length (m_joint_names s))%nat) ->
    let s' := fold_left write_joint l s in
    sized s' /\ same_config s s' /\
    forall i,
      (In i l ->
       nth i (m_efforts s') NaN = sat_at s i (nth i (m_efforts s) NaN) /\
       nth i (m_joint_cmd_eff_handles s') NaN
       = sat_at s i (nth i (m_efforts s) NaN)) /\
      (~ In i l ->
       nth i (m_efforts s') NaN = nth i (m_efforts s) NaN /\
       nth i (m_joint_cmd_eff_handles s') NaN
       = nth i (m_joint_cmd_eff_handles s) NaN).
Proof.
  induction l as [|a l IH]; intros s Hs Hnd Hlt; simpl.
  - split; [exact Hs|]. split; [unfold same_config; auto|].
    intros i; split; [intros []|intros _; auto].
  - inversion Hnd as [|? ? Ha Hnd']; subst.
    destruct (write_joint_sized s a Hs) as [Hs1 Hc1].
    assert (Hlt1 : forall i, In i l ->
                     (i < length (m_joint_names (write_joint s a)))%nat).
    { intros i Hi. destruct Hc1 as (_ & -> & _). apply Hlt; now right. }
    destruct (IH (write_joint s a) Hs1 Hnd' Hlt1) as (Hs' & Hc' & Hn).
    assert (Hal : (a < length (m_efforts s))%nat).
    { destruct Hs as (-> & _). apply Hlt; now left. }
    assert (Hah : (a < length (m_joint_cmd_eff_handles s))%nat).
    { destruct Hs as (_ & _ & ->). apply Hlt; now left. }
    split; [exact Hs'|]. split.
    { destruct Hc1 as (? & ? & ?), Hc' as (? & ? & ?).
      unfold same_config; repeat split; congruence. }
    intros i. destruct (Hn i) as [Hin Hout].
    assert (Hlim : m_joint_effort_limits (write_joint s a)
                   = m_joint_effort_limits s) by apply Hc1.
    split.
    + intros [<- | Hi].
      * destruct (Hout Ha) as [-> ->].
        unfold write_joint; simpl.
        rewrite !nth_assign_same by assumption. now split.
      * destruct (Hin Hi) as [-> ->].
        assert (a <> i) by (intros ->; contradiction).
        unfold sat_at. rewrite Hlim.
        assert (He : nth i (m_efforts (write_joint s a)) NaN
                     = nth i (m_efforts s) NaN).
        { unfold write_joint; simpl. now apply nth_assign_other. }
        rewrite He. now split.
    + intros Hni.
      assert (a <> i) by (intros ->; apply Hni; now left).
      destruct Hout as [-> ->]; [intros Hi; apply Hni; now right|].
      unfold write_joint; simpl.
      rewrite !nth_assign_other by assumption. now split.
Qed.

Lemma types_loop (types : list string) :
  forall s, sized s ->
    let s' := fold_left types_step types s in
    sized s' /\ same_config s s' /\
    forall i, (i < length (m_joint_names s))%nat ->
      nth i (m_efforts s') NaN
      = Nat.iter (passes types) (sat_at s i) (nth i (m_efforts s) NaN) /\
      nth i (m_joint_cmd_eff_handles s') NaN
      = match passes types with
        | O => nth i (m_joint_cmd_eff_handles s) NaN
        | S _ => Nat.iter (passes types) (sat_at s i)
                          (nth i (m_efforts s) NaN)
        end.
Proof.
  induction types as [|t types IH]; intros s Hs; cbv zeta.
  - unfold same_config; simpl; repeat split; auto; apply Hs.
  - change (fold_left types_step (t :: types) s)
      with (fold_left types_step types (types_step s t)).
    assert (Hp : passes (t :: types)
                 = if String.eqb t HW_IF_EFFORT
                   then S (passes types) else passes types).
    { unfold passes; simpl. now destruct (String.eqb t HW_IF_EFFORT). }
    rewrite Hp; clear Hp.
    destruct (String.eqb t HW_IF_EFFORT) eqn:Et.
    + assert (Hst : types_step s t
                    = fold_left write_joint
                                (seq 0 (length (m_joint_names s))) s).
      { unfold types_step. now rewrite Et. }
      rewrite Hst; clear Hst.
      pose proof (joints_pass (seq 0 (length (m_joint_names s))) s Hs
                    (seq_NoDup _ _)) as Hp.
      destruct Hp as (Hs1 & Hc1 & Hn1).
      { intros i Hi. apply in_seq in Hi. lia. }
      set (s1 := fold_left write_joint (seq 0 (length (m_joint_names s))) s)
        in *.
      destruct (IH s1 Hs1) as (Hs' & Hc' & Hn').
      split; [exact Hs'|]. split.
      { destruct Hc1 as (? & ? & ?), Hc' as (? & ? & ?).
        unfold same_config; repeat split; congruence. }
      intros i Hi.
      assert (Hi1 : (i < length (m_joint_names s1))%nat).
      { destruct Hc1 as (_ & -> & _). exact Hi. }
      destruct (Hn' i Hi1) as [He Hh].
      destruct (Hn1 i) as [Hin _].
      destruct Hin as [He1 Hh1]; [apply in_seq; lia|].
      assert (Hsat : sat_at s1 i = sat_at s i).
      { unfold sat_at. destruct Hc1 as (_ & _ & ->). reflexivity. }
      rewrite Hsat, He1 in He. rewrite Hsat, He1, Hh1 in Hh.
      rewrite <- Nat.iter_succ_r in He.
      split; [exact He|].
      destruct (passes types).
      * rewrite Hh. reflexivity.
      * rewrite Hh. rewrite <- Nat.iter_succ_r. reflexivity.
    + assert (Hst : types_step s t = s).
      { unfold types_step. now rewrite Et. }
      rewrite Hst. apply IH; assumption.
Qed.

(** Joint by joint, writeJointEffortCmds saturates the effort of the joint
    against the limit of the joint, once per effort interface type, and
    writes the result to the command interface of the joint. *)
Lemma writeJointEffortCmds_nth (s : State) (i : nat) :
  sized s -> (i < length (m_joint_names s))%nat ->
  let k := passes (m_cmd_interface_types s) in
  nth i (m_efforts (writeJointEffortCmds s)) NaN
  = Nat.iter k (sat_at s i) (nth i (m_efforts s) NaN) /\
  nth i (m_joint_cmd_eff_handles (writeJointEffortCmds s)) NaN
  = match k with
    | O => nth i (m_joint_cmd_eff_handles s) NaN
    | S _ => Nat.iter k (sat_at s i) (nth i (m_efforts s) NaN)
    end.
Proof.
  intros Hs Hi.
  destruct (types_loop (m_cmd_interface_types s) s Hs) as (_ & _ & Hn).
  exact (Hn i Hi).
Qed.

Lemma passes_pos (types : list string) :
  In HW_IF_EFFORT types -> exists k, passes types = S k.
Proof.
  unfold passes. induction types as [|t types IH]; simpl; intros Hin.
  - contradiction.
  - destruct (String.eqb_spec t HW_IF_EFFORT) as [->|Hne]; simpl.
    + eexists; reflexivity.
    + destruct Hin as [->|Hin]; [congruence|]. exact (IH Hin).
Qed.

Ltac decide_reals :=
  unfold saturate, le, ge, opp, Rleb;
  repeat (destruct (Rle_dec _ _); try lra); try reflexivity;
  try (f_equal; lra).

Lemma saturate_NaN_limit (e : double) : saturate e NaN = e.
Proof. destruct e; reflexivity. Qed.

Lemma saturate_NaN_effort (L : double) : saturate NaN L = NaN.
Proof. destruct L; reflexivity. Qed.

Lemma saturate_idempotent (e L : double) :
  L = NaN \/ (exists l, L = Finite l /\ 0 <= l) ->
  saturate (saturate e L) L = saturate e L.
Proof.
  intros [-> | (l & -> & Hl)].
  - now rewrite !saturate_NaN_limit.
  - destruct e as [t| | |]; decide_reals.
Qed.

Lemma iter_idempotent {A : Type} (f : A -> A) (k : nat) (a : A) :
  (forall b, f (f b) = f b) -> Nat.iter (S k) f a = f a.
Proof.
  intros Hf. induction k as [|k IH]; [reflexivity|].
  change (f (Nat.iter (S k) f a) = f a). rewrite IH. apply Hf.
Qed.

(** In a configured controller whose limit for joint i is NaN or finite and
    not negative, the command of joint i is its torque, saturated once. *)
Lemma written_saturated (s : State) (i : nat) :
  configured s -> (i < length (m_joint_names s))%nat ->
  nth i (m_joint_effort_limits s) NaN = NaN \/
  (exists l, nth i (m_joint_effort_limits s) NaN = Finite l /\ 0 <= l) ->
  nth i (m_joint_cmd_eff_handles (writeJointEffortCmds s)) NaN
  = sat_at s i (nth i (m_efforts s) NaN).
Proof.
  intros [Hs Hin] Hi HL.
  destruct (writeJointEffortCmds_nth s i Hs Hi) as [_ Hh].
  destruct (passes_pos _ Hin) as [k Hk].
  rewrite Hk in Hh. rewrite Hh.
  apply iter_idempotent. intros b. unfold sat_at.
  now apply saturate_idempotent.
Qed.

Lemma parse_effort_limits_nth (getJoint : string -> option Joint) :
  forall names limits i nm j,
    parse_effort_limits getJoint names = Some limits ->
    nth_error names i = Some nm -> getJoint nm = Some j ->
    nth_error limits i = Some (effort_limit_of j).
Proof.
  induction names as [|n names IH]; intros limits i nm j Hp Hn Hj.
  - destruct i; discriminate.
  - simpl in Hp. destruct (getJoint n) as [jn|] eqn:Hjn; [|discriminate].
    destruct (parse_effort_limits getJoint names) as [ls|] eqn:Hls;
      [|discriminate].
    injection Hp as <-. destruct i as [|i]; simpl in *.
    + injection Hn as ->. congruence.
    + eapply IH; eauto.
Qed.

(** C4, as amended.  For every joint of a configured controller: when its
    effort limit is finite and not negative, the value written to its
    command interface is the computed torque clamped to [-L, +L]
    (unchanged inside, exactly +L above, exactly -L below); when its limit
    is NaN the computed torque is written unchanged; and on_configure gives
    every continuous joint the limit NaN. *)
Theorem C4_effort_saturation (s : State) (i : nat) :
  configured s -> (i < length (m_joint_names s))%nat ->
  let tau := nth i (m_efforts s) NaN in
  let L := nth i (m_joint_effort_limits s) NaN in
  let w := nth i (m_joint_cmd_eff_handles (writeJointEffortCmds s)) NaN in
  (forall l, L = Finite l -> 0 <= l -> clamped_to tau l w) /\
  (L = NaN -> w = tau) /\
  (forall getJoint names limits k nm j,
      parse_effort_limits getJoint names = Some limits ->
      nth_error names k = Some nm -> getJoint nm = Some j ->
      type j = CONTINUOUS -> nth_error limits k = Some NaN).
Proof.
  intros Hc Hi tau L w. split; [|split].
  - intros l HL Hl.
    assert (Hw : w = saturate tau (Finite l)).
    { unfold w. rewrite written_saturated; auto.
      - unfold sat_at. fold L. now rewrite HL.
      - right. exists l. fold L. auto. }
    rewrite Hw. unfold clamped_to. repeat split.
    + intros t -> Ht. decide_reals.
    + intros [-> | (t & -> & Ht)]; decide_reals.
    + intros [-> | (t & -> & Ht)]; decide_reals.
  - intros HL. unfold w. rewrite written_saturated; auto.
    unfold sat_at. fold L. rewrite HL. apply saturate_NaN_limit.
  - intros getJoint names limits k nm j Hp Hn Hj Ht.
    rewrite (parse_effort_limits_nth getJoint names limits k nm j Hp Hn Hj).
    unfold effort_limit_of. now rewrite Ht.
Qed.

Lemma C4_effort_saturation_witness :
  clamped_to (Finite 25) 10
    (nth 0 (m_joint_cmd_eff_handles
              (writeJointEffortCmds Examples.base_two)) NaN) /\
  (nth 1 (m_joint_effort_limits Examples.base_two) NaN = NaN ->
   nth 1 (m_joint_cmd_eff_handles
            (writeJointEffortCmds Examples.base_two)) NaN = Finite 3).
Proof.
  assert (Hc : configured Examples.base_two).
  { unfold configured, sized; simpl; auto. }
  split.
  - apply (C4_effort_saturation Examples.base_two 0 Hc).
    + simpl; lia.
    + reflexivity.
    + lra.
  - apply (C4_effort_saturation Examples.base_two 1 Hc). simpl; lia.
Defined.

(** C4 as stated fails for a finite limit that is negative: with the limit
    -1 and the torque 0, the torque is below -L = 1, and the value written
    is L = -1, not -L. *)
Lemma C4_counterexample :
  let w := nth 0 (m_joint_cmd_eff_handles
                    (writeJointEffortCmds Examples.base_negative)) NaN in
  w = Finite (-1) /\ ~ clamped_to (Finite 0) (-1) w.
Proof.
  assert (Hw : nth 0 (m_joint_cmd_eff_handles
                        (writeJointEffortCmds Examples.base_negative)) NaN
               = Finite (-1)).
  { cbv [writeJointEffortCmds Examples.base_negative fold_left
         m_cmd_interface_types m_joint_names length seq String.eqb
         HW_IF_EFFORT Ascii.eqb Bool.eqb write_joint set_efforts
         set_cmd_eff_handles m_efforts m_joint_effort_limits
         m_joint_cmd_eff_handles assign nth].
    decide_reals. }
  cbv zeta. rewrite Hw. split; [reflexivity|].
  intros (_ & _ & Hlow).
  assert (H : Finite (-1) = Finite (- -1)).
  { apply Hlow. right. exists 0. split; [reflexivity|lra]. }
  injection H as H. lra.
Qed.

(** The effort stage of update() is writeJointEffortCmds on the torque of
    the tick. *)
Lemma effort_stage_writes (tau_tot : list double) (s : State) :
  effort_stage tau_tot s = writeJointEffortCmds (set_efforts tau_tot s) /\
  m_efforts (set_efforts tau_tot s) = tau_tot.
Proof. split; reflexivity. Qed.

(** C3, as amended.  writeJointEffortCmds has no check for non-finite
    values: the value written for a joint is the saturation of the torque
    of that joint alone, once per effort interface type.  A NaN torque is
    written as NaN; with a finite limit L that is not negative, an infinite
    torque is written as +L or -L; with a NaN limit the torque is written
    as it is. *)
Theorem C3_nonfinite_torque_not_zeroed (s : State) (i : nat) :
  configured s -> (i < length (m_joint_names s))%nat ->
  let tau := nth i (m_efforts s) NaN in
  let L := nth i (m_joint_effort_limits s) NaN in
  let w := nth i (m_joint_cmd_eff_handles (writeJointEffortCmds s)) NaN in
  w = Nat.iter (passes (m_cmd_interface_types s))
               (fun e => saturate e L) tau /\
  (tau = NaN -> w = NaN) /\
  (forall l, L = Finite l -> 0 <= l ->
     (tau = PosInf -> w = Finite l) /\
     (tau = NegInf -> w = Finite (- l))) /\
  (L = NaN -> w = tau).
Proof.
  intros [Hs Hin] Hi tau L w.
  destruct (writeJointEffortCmds_nth s i Hs Hi) as [_ Hw].
  fold w in Hw. destruct (passes_pos _ Hin) as [k Hk].
  assert (Hiter : w = Nat.iter (passes (m_cmd_interface_types s))
                               (fun e => saturate e L) tau).
  { rewrite Hw, Hk. reflexivity. }
  split; [exact Hiter|].
  rewrite Hk in Hiter. split; [|split].
  - intros Hn. rewrite Hiter, Hn.
    clear. induction (S k) as [|n IH]; [reflexivity|].
    simpl. rewrite IH. apply saturate_NaN_effort.
  - intros l HL Hl0.
    assert (Hidem : forall b, saturate (saturate b L) L = saturate b L).
    { intros b. apply saturate_idempotent. right. exists l. auto. }
    rewrite Hiter, (iter_idempotent _ k _ Hidem), HL.
    split; intros ->; decide_reals.
  - intros HL.
    assert (Hidem : forall b, saturate (saturate b L) L = saturate b L).
    { intros b. apply saturate_idempotent. now left. }
    rewrite Hiter, (iter_idempotent _ k _ Hidem), HL.
    apply saturate_NaN_limit.
Qed.

Lemma C3_nonfinite_torque_not_zeroed_witness :
  nth 0 (m_joint_cmd_eff_handles
           (writeJointEffortCmds Examples.base_nan)) NaN = NaN.
Proof.
  assert (Hc : configured Examples.base_nan).
  { unfold configured, sized; simpl; auto. }
  assert (Hi : (0 < length (m_joint_names Examples.base_nan))%nat).
  { simpl; lia. }
  destruct (C3_nonfinite_torque_not_zeroed Examples.base_nan 0 Hc Hi)
    as (_ & Hnan & _).
  apply Hnan. reflexivity.
Defined.

(** C3 as stated fails: with the torque (NaN, 1) and both limits 10, the
    values written are NaN and 1, neither of them zero; and they are the
    same when the torque comes in through the effort stage of update(). *)
Lemma C3_counterexample :
  m_efforts Examples.base_nan = [NaN; Finite 1] /\
  m_joint_cmd_eff_handles (writeJointEffortCmds Examples.base_nan)
  = [NaN; Finite 1] /\
  m_joint_cmd_eff_handles
    (effort_stage [NaN; Finite 1] Examples.base_nan) = [NaN; Finite 1] /\
  ~ (forall i, (i < 2)%nat ->
       nth i (m_joint_cmd_eff_handles
                (writeJointEffortCmds Examples.base_nan)) NaN
       = Finite 0).
Proof.
  assert (Hw : m_joint_cmd_eff_handles
                 (writeJointEffortCmds Examples.base_nan)
               = [NaN; Finite 1]).
  { cbv [writeJointEffortCmds Examples.base_nan fold_left
         m_cmd_interface_types m_joint_names length seq String.eqb
         HW_IF_EFFORT Ascii.eqb Bool.eqb write_joint set_efforts
         set_cmd_eff_handles m_efforts m_joint_effort_limits
         m_joint_cmd_eff_handles assign nth].
    decide_reals. }
  split; [reflexivity|]. split; [exact Hw|]. split; [exact Hw|].
  intros H. specialize (H 0%nat ltac:(lia)). rewrite Hw in H.
  discriminate H.
Qed.

End EffortLimiter.

(** ** The motion error *)

Section MotionError.
Import KDL.










(** C5, as amended.  The safety-filtered controller takes the rotation
    error from target.M * current.M^-1 by GetRotAngle and the translation
    error from target.p - current.p, normalises both and rescales them by
    their magnitudes clamped to [-1, 1].  The third variant returns
    target.p - current.p and axis * angle of target.M * current.M^-1 as
    they are.  The variant with the postural task returns
    current.p - target.p, the opposite sign, and half the sum of the cross
    products of the unit vectors of target and current. *)
Theorem C5_motion_error_variants
        {geo : Geometry} {kin : Base.Kinematics}
        (s1 : HOCBFCartesianImpedanceController.State)
        (s2 : CartesianImpedanceController.State)
        (s3 : CartesianImpedanceControllerFZI.State) :
  (let target := HOCBFCartesianImpedanceController.m_target_frame s1 in
   let current := HOCBFCartesianImpedanceController.m_current_frame s1 in
   let e := HOCBFCartesianImpedanceController.computeMotionError s1 in
   let dp := Normalize (vminus (p target) (p current)) in
   let dM := GetRotAngle (rmul (M target) (Inverse (M current))) in
   head3 e = vtimes (snd dp) (clamp (fst dp) (-1) 1) /\
   tail3 e = vtimes (snd dM) (clamp (fst dM) (-1) 1)) /\
  (let target := CartesianImpedanceControllerFZI.m_target_frame s3 in
   let current :=
     Base.fk_JntToCart
       (Base.m_joint_positions (CartesianImpedanceControllerFZI.base s3)) in
   let e := CartesianImpedanceControllerFZI.computeMotionError s3 in
   let dM := GetRotAngle (rmul (M target) (Inverse (M current))) in
   head3 e = vminus (p target) (p current) /\
   tail3 e = vtimes (snd dM) (fst dM)) /\
  (let target := CartesianImpedanceController.m_target_frame s2 in
   let current := CartesianImpedanceController.m_current_frame s2 in
   let e := CartesianImpedanceController.computeMotionError s2 in
   head3 e = vminus (p current) (p target) /\
   head3 e = stimes (-1) (vminus (p target) (p current)) /\
   tail3 e = stimes (1 / 2)
               (vplus
                  (vplus (cross (UnitX (M target)) (UnitX (M current)))
                         (cross (UnitY (M target)) (UnitY (M current))))
                  (cross (UnitZ (M target)) (UnitZ (M current))))).
Proof.
  split; [|split].
  - split; reflexivity.
  - split; reflexivity.
  - split; [reflexivity|split; [|reflexivity]].
    unfold CartesianImpedanceController.computeMotionError, head3, vminus,
      stimes; simpl. f_equal; ring.
Qed.

(** C5 as stated fails for the variant with the postural task: with the
    target one unit ahead of the end effector along x, its translation
    error is (-1, 0, 0) and target.p - current.p is (1, 0, 0). *)
Lemma C5_counterexample :
  let s := Examples.impedance0 in
  let target := CartesianImpedanceController.m_target_frame s in
  let current := CartesianImpedanceController.m_current_frame s in
  head3 (CartesianImpedanceController.computeMotionError s)
  <> vminus (p target) (p current).
Proof.
  cbv zeta.
  unfold CartesianImpedanceController.computeMotionError, head3, vminus;
    simpl.
  intros H. injection H as H. lra.
Qed.

End MotionError.

(** ** The torque of the safety-filtered controller *)

Section ComputeTorque.
Import Eigen HOCBFCartesianImpedanceController Torque.

Lemma det_n_S (n : nat) (r : VectorND) (rest : MatrixND) :
  det_n (S n) (r :: rest)
  = fold_right Rplus 0
      (map (fun j => sign j * nth j r 0 * det_n n (map (drop_nth j) rest))
           (seq 0 (S n))).
Proof. reflexivity. Qed.

Lemma det_n_O (A : MatrixND) : det_n 0 A = 1.
Proof. reflexivity. Qed.

(** Expand a determinant along first rows, dropping the terms whose
    coefficient is zero before their minors are expanded. *)
Ltac det_eval :=
  repeat (first [rewrite det_n_S | rewrite det_n_O];
          cbn [fold_right map seq nth sign Nat.even drop_nth firstn skipn
               app];
          rewrite ?Rmult_0_r, ?Rmult_0_l, ?Rplus_0_l, ?Rplus_0_r,
                  ?Rmult_1_l, ?Rmult_1_r).

Ltac entrywise := repeat (apply (f_equal2 (@cons _))); try reflexivity.

Lemma determinant_scalar6 (a : R) :
  determinant (scalar6 a) = a * a * a * a * a * a.
Proof.
  cbv [scalar6 determinant rows asDiagonal map seq length nth Nat.eqb].
  det_eval. ring.
Qed.

Lemma inverse_scalar6 (a : R) :
  a <> 0 -> inverse (scalar6 a) = scalar6 (/ a).
Proof.
  intros Ha. unfold inverse. rewrite determinant_scalar6.
  cbv [scalar6 adjugate rows asDiagonal map seq length nth Nat.eqb].
  entrywise.
  all: cbv [cofactor rows length Nat.sub Nat.add drop_nth firstn skipn app
            map sign Nat.even].
  all: det_eval.
  all: try (field; exact Ha).
Qed.

Lemma congruence_scalar6 (a : R) :
  mmul (mmul (Identity 6) (scalar6 a)) (transpose (Identity 6)) = scalar6 a.
Proof.
  cbv [scalar6 mmul transpose Identity asDiagonal cols col dot map seq hd
       length nth Nat.eqb].
  entrywise. all: ring.
Qed.

Context {geo : KDL.Geometry} {kin : Base.Kinematics} {dyn : Dynamics}
        {flt : SafetyFilter}.

(** The one call of the safety filter: what computeTorque hands over. *)
Lemma computeTorque_filter_call (current_time : R) (s : State) :
  let q := Base.m_joint_positions (base s) in
  let jac := Base.JntToJac q in
  let call := filter_call (computeTorque current_time s) in
  arg_jac call = jac /\
  arg_Lambda call
  = inverse (mmul (mmul jac (JntToMass q)) (transpose jac)) /\
  arg_tau_coriolis call = Zero (m_joint_number s) /\
  arg_dot_x call = mvmul jac (m_joint_velocities s) /\
  arg_current_frame call = Base.fk_JntToCart q /\
  arg_dt call = current_time - m_last_time s.
Proof. repeat split. Qed.

(** The call does not depend on the compensation flags. *)
Lemma filter_call_flags (current_time : R) (s : State) (g c : bool) :
  filter_call (computeTorque current_time (set_flags g c s))
  = filter_call (computeTorque current_time s).
Proof. reflexivity. Qed.


(** C10.  In every tick the Coriolis argument of the call of the safety
    filter is the zero vector with one entry per joint, whatever the flags
    and whatever the Coriolis routine of the dynamics solver computes: that
    routine has no influence on the call. *)
Theorem C10_filter_gets_zero_coriolis
        (current_time : R) (s : State) (g c : bool)
        (cor : VectorND -> VectorND -> VectorND) :
  arg_tau_coriolis (filter_call (computeTorque current_time s))
  = repeat 0 (m_joint_number s) /\
  arg_tau_coriolis
    (filter_call (computeTorque current_time (set_flags g c s)))
  = repeat 0 (m_joint_number s) /\
  filter_call (computeTorque (dyn := with_Coriolis dyn cor) current_time s)
  = filter_call (computeTorque current_time s).
Proof. repeat split. Qed.

End ComputeTorque.

(** C1, the code at a failing input.  A six-joint arm whose Jacobian is
    the identity and whose mass matrix is 2 I: the matrix handed to the
    safety filter as Lambda is (J M J^T)^-1 = I / 2, and the
    operational-space inertia (J M^-1 J^T)^-1 is 2 I. *)
Theorem C1_Lambda_at_failing_input :
  let T := HOCBFCartesianImpedanceController.computeTorque
             (geo := Reference.geometry) (kin := Reference.kinematics)
             (dyn := Reference.dynamics) (flt := Reference.filter)
             0 Examples.hocbf0 in
  let J := Eigen.Identity 6 in
  let M := Torque.scalar6 2 in
  HOCBFCartesianImpedanceController.arg_Lambda
    (HOCBFCartesianImpedanceController.filter_call T)
  = Eigen.inverse (Eigen.mmul (Eigen.mmul J M) (Eigen.transpose J)) /\
  HOCBFCartesianImpedanceController.arg_Lambda
    (HOCBFCartesianImpedanceController.filter_call T)
  = Torque.scalar6 (1 / 2) /\
  Torque.operational_space_inertia J M = Torque.scalar6 2 /\
  HOCBFCartesianImpedanceController.arg_Lambda
    (HOCBFCartesianImpedanceController.filter_call T)
  <> Torque.operational_space_inertia J M.
Proof.
  intros T J M.
  assert (Hcode : HOCBFCartesianImpedanceController.arg_Lambda
                    (HOCBFCartesianImpedanceController.filter_call T)
                  = Torque.scalar6 (1 / 2)).
  { change (Eigen.inverse
              (Eigen.mmul (Eigen.mmul (Eigen.Identity 6) (Torque.scalar6 2))
                          (Eigen.transpose (Eigen.Identity 6)))
            = Torque.scalar6 (1 / 2)).
    rewrite congruence_scalar6, inverse_scalar6 by lra.
    f_equal. lra. }
  assert (Hspec : Torque.operational_space_inertia J M = Torque.scalar6 2).
  { unfold Torque.operational_space_inertia, J, M.
    rewrite inverse_scalar6 by lra.
    rewrite congruence_scalar6, inverse_scalar6 by lra.
    f_equal. field. }
  split; [reflexivity|]. split; [exact Hcode|]. split; [exact Hspec|].
  rewrite Hcode, Hspec. intros H.
  apply (f_equal (fun A => nth 0 (nth 0 A []) 0)) in H. simpl in H. lra.
Qed.

(** ** The subscriptions: target frame and target wrench *)

Section Subscriptions.
Import Callbacks.
Context {geo : KDL.Geometry} {kin : Base.Kinematics}.

(** Two poses in a wrong frame less than 3000 ms apart print the warning
    at most once. *)
Lemma targetFrameCallback_rate_limited
      (s : HOCBFCartesianImpedanceController.State)
      (m1 m2 : geometry_msgs.PoseStamped) (t1 t2 : Z) :
  String.eqb (geometry_msgs.pose_frame_id m1)
             (Base.m_robot_base_link
                (HOCBFCartesianImpedanceController.base s)) = false ->
  String.eqb (geometry_msgs.pose_frame_id m2)
             (Base.m_robot_base_link
                (HOCBFCartesianImpedanceController.base s)) = false ->
  (t1 <= t2 < t1 + 3000)%Z ->
  (length (HOCBFCartesianImpedanceController.warnings
             (HOCBFCartesianImpedanceController.targetFrameCallback t2 m2
                (HOCBFCartesianImpedanceController.targetFrameCallback
                   t1 m1 s)))
   <= S (length (HOCBFCartesianImpedanceController.warnings s)))%nat.
Proof.
  intros H1 H2 Ht.
  unfold HOCBFCartesianImpedanceController.targetFrameCallback.
  rewrite H1; simpl. unfold rclcpp.THROTTLE.
  destruct (Z.leb_spec
              (HOCBFCartesianImpedanceController.warn_last_logged s + 3000)
              t1) as [Hl|Hl]; simpl; rewrite H2; simpl.
  - destruct (Z.leb_spec (t1 + 3000) t2); simpl; lia.
  - destruct (Z.leb_spec
                (HOCBFCartesianImpedanceController.warn_last_logged s + 3000)
                t2); simpl; lia.
Qed.

(** C7.  For every target pose message and each of the three controllers:
    when the frame identifier of the message is not the robot base link,
    the stored target frame stays what it was and the warning goes through
    the 3000 ms throttle (it is printed when the clock has reached the last
    print plus 3000 ms, and then the last print is now); when it is the
    robot base link, the stored target frame becomes the pose of the
    message and nothing is printed. *)
Theorem C7_target_frame_callback
        (now : Z) (target : geometry_msgs.PoseStamped)
        (s1 : HOCBFCartesianImpedanceController.State)
        (s2 : CartesianImpedanceController.State)
        (s3 : CartesianImpedanceControllerFZI.State) :
  (let s' :=
     HOCBFCartesianImpedanceController.targetFrameCallback now target s1 in
   let last := HOCBFCartesianImpedanceController.warn_last_logged s1 in
   let log := HOCBFCartesianImpedanceController.warnings s1 in
   if String.eqb (geometry_msgs.pose_frame_id target)
                 (Base.m_robot_base_link
                    (HOCBFCartesianImpedanceController.base s1))
   then HOCBFCartesianImpedanceController.m_target_frame s'
        = pose_frame target /\
        HOCBFCartesianImpedanceController.m_received_initial_frame s'
        = true /\
        HOCBFCartesianImpedanceController.warnings s' = log /\
        HOCBFCartesianImpedanceController.warn_last_logged s' = last
   else HOCBFCartesianImpedanceController.m_target_frame s'
        = HOCBFCartesianImpedanceController.m_target_frame s1 /\
        HOCBFCartesianImpedanceController.warnings s'
        = warned now last log /\
        HOCBFCartesianImpedanceController.warn_last_logged s'
        = warned_last now last) /\
  (let s' := CartesianImpedanceController.targetFrameCallback now target s2 in
   let last := CartesianImpedanceController.warn_last_logged s2 in
   let log := CartesianImpedanceController.warnings s2 in
   if String.eqb (geometry_msgs.pose_frame_id target)
                 (Base.m_robot_base_link
                    (CartesianImpedanceController.base s2))
   then CartesianImpedanceController.m_target_frame s' = pose_frame target /\
        CartesianImpedanceController.warnings s' = log /\
        CartesianImpedanceController.warn_last_logged s' = last
   else CartesianImpedanceController.m_target_frame s'
        = CartesianImpedanceController.m_target_frame s2 /\
        CartesianImpedanceController.warnings s' = warned now last log /\
        CartesianImpedanceController.warn_last_logged s'
        = warned_last now last) /\
  (let s' :=
     CartesianImpedanceControllerFZI.targetFrameCallback now target s3 in
   let last := CartesianImpedanceControllerFZI.warn_last_logged s3 in
   let log := CartesianImpedanceControllerFZI.warnings s3 in
   if String.eqb (geometry_msgs.pose_frame_id target)
                 (Base.m_robot_base_link
                    (CartesianImpedanceControllerFZI.base s3))
   then CartesianImpedanceControllerFZI.m_target_frame s'
        = pose_frame target /\
        CartesianImpedanceControllerFZI.warnings s' = log /\
        CartesianImpedanceControllerFZI.warn_last_logged s' = last
   else CartesianImpedanceControllerFZI.m_target_frame s'
        = CartesianImpedanceControllerFZI.m_target_frame s3 /\
        CartesianImpedanceControllerFZI.warnings s' = warned now last log /\
        CartesianImpedanceControllerFZI.warn_last_logged s'
        = warned_last now last).
Proof.
  split; [|split]; cbv zeta.
  - unfold HOCBFCartesianImpedanceController.targetFrameCallback.
    destruct (String.eqb _ _); simpl.
    + destruct (HOCBFCartesianImpedanceController.m_received_initial_frame
                  s1) eqn:Hr; simpl; auto.
    + unfold rclcpp.THROTTLE, warned, warned_last.
      destruct (Z.leb _ _); simpl; auto.
  - unfold CartesianImpedanceController.targetFrameCallback.
    destruct (String.eqb _ _); simpl; auto.
    unfold rclcpp.THROTTLE, warned, warned_last.
    destruct (Z.leb _ _); simpl; auto.
  - unfold CartesianImpedanceControllerFZI.targetFrameCallback.
    destruct (String.eqb _ _); simpl; auto.
    unfold rclcpp.THROTTLE, warned, warned_last.
    destruct (Z.leb _ _); simpl; auto.
Qed.

(** C8, as amended.  Every target wrench message is stored.  The
    safety-filtered controller stores the six scalars of the message when
    its frame identifier is the robot base link, and otherwise the six
    scalars rotated into the base link by displayInBaseLink; the two other
    controllers store the six scalars whatever the frame identifier.  None
    of them prints a warning or touches the target frame. *)
Theorem C8_target_wrench_callback
        (wrench : geometry_msgs.WrenchStamped)
        (s1 : HOCBFCartesianImpedanceController.State)
        (s2 : CartesianImpedanceController.State)
        (s3 : CartesianImpedanceControllerFZI.State) :
  (let s' :=
     HOCBFCartesianImpedanceController.targetWrenchCallback wrench s1 in
   HOCBFCartesianImpedanceController.m_target_wrench s'
   = (if String.eqb (geometry_msgs.wrench_frame_id wrench)
                    (Base.m_robot_base_link
                       (HOCBFCartesianImpedanceController.base s1))
      then wrench_vector wrench
      else Base.displayInBaseLink
             (HOCBFCartesianImpedanceController.base s1)
             (wrench_vector wrench)
             (geometry_msgs.wrench_frame_id wrench)) /\
   HOCBFCartesianImpedanceController.warnings s'
   = HOCBFCartesianImpedanceController.warnings s1 /\
   HOCBFCartesianImpedanceController.warn_last_logged s'
   = HOCBFCartesianImpedanceController.warn_last_logged s1 /\
   HOCBFCartesianImpedanceController.m_target_frame s'
   = HOCBFCartesianImpedanceController.m_target_frame s1) /\
  (let s' := CartesianImpedanceController.targetWrenchCallback wrench s2 in
   CartesianImpedanceController.m_target_wrench s' = wrench_vector wrench /\
   CartesianImpedanceController.warnings s'
   = CartesianImpedanceController.warnings s2 /\
   CartesianImpedanceController.m_target_frame s'
   = CartesianImpedanceController.m_target_frame s2) /\
  (let s' := CartesianImpedanceControllerFZI.targetWrenchCallback wrench s3 in
   CartesianImpedanceControllerFZI.m_target_wrench s'
   = wrench_vector wrench /\
   CartesianImpedanceControllerFZI.warnings s'
   = CartesianImpedanceControllerFZI.warnings s3 /\
   CartesianImpedanceControllerFZI.m_target_frame s'
   = CartesianImpedanceControllerFZI.m_target_frame s3).
Proof.
  split; [|split]; cbv zeta.
  - unfold HOCBFCartesianImpedanceController.targetWrenchCallback.
    simpl. destruct (String.eqb _ _); simpl; auto.
  - repeat split.
  - repeat split.
Qed.

End Subscriptions.

(** C8 as stated fails: a wrench of 1 N along x that is given in the frame
    tool0, not the robot base link base_link, replaces the stored target
    wrench 0, in the controller with the postural task and (the tool frame
    being aligned with the base here) in the safety-filtered controller. *)
Lemma C8_counterexample :
  String.eqb (geometry_msgs.wrench_frame_id Examples.wrench_tool)
             (Base.m_robot_base_link Examples.base6) = false /\
  CartesianImpedanceController.m_target_wrench
    (CartesianImpedanceController.targetWrenchCallback
       Examples.wrench_tool Examples.impedance0)
  = Eigen.mkVector6D 1 0 0 0 0 0 /\
  CartesianImpedanceController.m_target_wrench
    (CartesianImpedanceController.targetWrenchCallback
       Examples.wrench_tool Examples.impedance0)
  <> CartesianImpedanceController.m_target_wrench Examples.impedance0 /\
  HOCBFCartesianImpedanceController.m_target_wrench
    (HOCBFCartesianImpedanceController.targetWrenchCallback
       (kin := Reference.kinematics) Examples.wrench_tool Examples.hocbf0)
  <> HOCBFCartesianImpedanceController.m_target_wrench Examples.hocbf0.
Proof.
  split; [reflexivity|]. split; [reflexivity|]. split.
  - simpl. intros H. injection H as H. lra.
  - cbv [HOCBFCartesianImpedanceController.targetWrenchCallback
         Examples.wrench_tool Examples.hocbf0 Examples.base6
         geometry_msgs.wrench_frame_id Base.m_robot_base_link
         HOCBFCartesianImpedanceController.base String.eqb Ascii.eqb
         Bool.eqb negb
         HOCBFCartesianImpedanceController.set_target_wrench
         HOCBFCartesianImpedanceController.m_target_wrench].
    unfold Base.displayInBaseLink; simpl.
    intros H. injection H as H. lra.
Qed.

(** ** Re-expression in another link frame *)

Section FrameTransformer.
Import KDL Frames.
Context {kin : Base.Kinematics}.

Lemma rapply_rmul (A B : Rotation) (v : Vector) :
  rapply A (rapply B v) = rapply (rmul A B) v.
Proof. unfold rapply, rmul; simpl. f_equal; ring. Qed.

Lemma rapply_Identity (v : Vector) : rapply Rotation_Identity v = v.
Proof. destruct v. unfold rapply; simpl. f_equal; ring. Qed.

Lemma Wrench_round (v : Eigen.Vector6D) : Wrench_to (Wrench_of v) = v.
Proof. destruct v; reflexivity. Qed.

Lemma rwrench_inverse_l (A : Rotation) (w : Wrench) :
  rmul (Inverse A) A = Rotation_Identity ->
  rwrench (Inverse A) (rwrench A w) = w.
Proof.
  intros H. destruct w as [f t]. unfold rwrench; simpl.
  now rewrite !rapply_rmul, H, !rapply_Identity.
Qed.

Lemma rwrench_inverse_r (A : Rotation) (w : Wrench) :
  rmul A (Inverse A) = Rotation_Identity ->
  rwrench A (rwrench (Inverse A) w) = w.
Proof.
  intros H. destruct w as [f t]. unfold rwrench; simpl.
  now rewrite !rapply_rmul, H, !rapply_Identity.
Qed.

Lemma Wrench_of_to (w : Wrench) : Wrench_of (Wrench_to w) = w.
Proof. destruct w as [[] []]; reflexivity. Qed.

(** X1.  A 6D vector displayed in the base link and then displayed back in
    the link it came from is the vector itself, and the other way round,
    whenever the forward kinematics returns a rotation matrix for that
    link. *)
Theorem displayInBaseLink_displayInTipLink
        (s : Base.State) (v : Eigen.Vector6D) (link : string) :
  orthonormal (M (Base.JntToCart (Base.ik_positions s) link)) ->
  Base.displayInTipLink s (Base.displayInBaseLink s v link) link = v /\
  Base.displayInBaseLink s (Base.displayInTipLink s v link) link = v.
Proof.
  intros [Hl Hr]. unfold Base.displayInTipLink, Base.displayInBaseLink.
  split.
  - rewrite Wrench_of_to, rwrench_inverse_l by assumption.
    apply Wrench_round.
  - rewrite Wrench_of_to, rwrench_inverse_r by assumption.
    apply Wrench_round.
Qed.

Lemma orthonormal_Identity : orthonormal Rotation_Identity.
Proof. split; unfold rmul, Inverse, Rotation_Identity; simpl; f_equal; ring. Qed.

Lemma Norm_rapply (A : Rotation) (v : Vector) :
  rmul (Inverse A) A = Rotation_Identity -> Norm (rapply A v) = Norm v.
Proof.
  intros H. unfold Norm. f_equal.
  unfold rmul, Inverse, Rotation_Identity in H; simpl in H.
  injection H as H0 H1 H2 H3 H4 H5 H6 H7 H8.
  unfold rapply; simpl.
  replace ((d0 A * x v + d1 A * y v + d2 A * z v) *
           (d0 A * x v + d1 A * y v + d2 A * z v) +
           (d3 A * x v + d4 A * y v + d5 A * z v) *
           (d3 A * x v + d4 A * y v + d5 A * z v) +
           (d6 A * x v + d7 A * y v + d8 A * z v) *
           (d6 A * x v + d7 A * y v + d8 A * z v))
    with ((d0 A * d0 A + d3 A * d3 A + d6 A * d6 A) * (x v * x v)
          + (d1 A * d1 A + d4 A * d4 A + d7 A * d7 A) * (y v * y v)
          + (d2 A * d2 A + d5 A * d5 A + d8 A * d8 A) * (z v * z v)
          + 2 * (d0 A * d1 A + d3 A * d4 A + d6 A * d7 A) * (x v * y v)
          + 2 * (d0 A * d2 A + d3 A * d5 A + d6 A * d8 A) * (x v * z v)
          + 2 * (d1 A * d2 A + d4 A * d5 A + d7 A * d8 A) * (y v * z v))
    by ring.
  rewrite H0, H1, H2, H4, H5, H8. ring.
Qed.

(** X2.  Displaying a wrench in the base link changes neither the
    magnitude of its force nor the magnitude of its torque, whenever the
    forward kinematics returns a rotation matrix for the link: the
    re-expression is a pure rotation of both blocks. *)
Theorem displayInBaseLink_magnitudes
        (s : Base.State) (v : Eigen.Vector6D) (link : string) :
  orthonormal (M (Base.JntToCart (Base.ik_positions s) link)) ->
  Norm (head3 (Base.displayInBaseLink s v link)) = Norm (head3 v) /\
  Norm (tail3 (Base.displayInBaseLink s v link)) = Norm (tail3 v).
Proof.
  intros [Hl _]. unfold Base.displayInBaseLink.
  split.
  - change (Norm (rapply (M (Base.JntToCart (Base.ik_positions s) link))
                         (head3 v)) = Norm (head3 v)).
    now apply Norm_rapply.
  - change (Norm (rapply (M (Base.JntToCart (Base.ik_positions s) link))
                         (tail3 v)) = Norm (tail3 v)).
    now apply Norm_rapply.
Qed.

End FrameTransformer.

Section TensorTransformer.
Import KDL Frames Eigen.
Context {kin : Base.Kinematics}.

Ltac entries := repeat (apply (f_equal2 (@cons _))); try reflexivity.

Lemma similarity_scalar3 (A : Rotation) (k : R) :
  mmul (mmul (toMatrix A) (asDiagonal [k; k; k])) (transpose (toMatrix A))
  = mscale k (toMatrix (rmul A (Inverse A))).
Proof.
  cbv [mmul transpose toMatrix asDiagonal mscale vscale cols col dot map seq
       hd length nth Nat.eqb rmul Inverse d0 d1 d2 d3 d4 d5 d6 d7 d8].
  entries. all: ring.
Qed.

Lemma mscale_Identity3 (k : R) :
  mscale k (toMatrix Rotation_Identity) = asDiagonal [k; k; k].
Proof.
  cbv [mscale vscale toMatrix Rotation_Identity asDiagonal map seq length
       nth Nat.eqb d0 d1 d2 d3 d4 d5 d6 d7 d8].
  entries. all: ring.
Qed.

(** X3.  A stiffness or damping tensor that is isotropic in translation and
    isotropic in rotation, as the default 500, 500, 500, 50, 50, 50 is,
    displayed in the base link is the tensor itself, for every link whose
    forward kinematics is a rotation matrix: the control law then uses the
    configured gains in every pose. *)
Theorem displayInBaseLink_isotropic
        (s : Base.State) (k c : R) (link : string) :
  orthonormal (M (Base.JntToCart (Base.ik_positions s) link)) ->
  Base.displayInBaseLink_tensor s (isotropic k c) link = isotropic k c.
Proof.
  intros [_ Hr]. unfold Base.displayInBaseLink_tensor.
  change (topLeftCorner3 (isotropic k c)) with (asDiagonal [k; k; k]).
  change (bottomRightCorner3 (isotropic k c)) with (asDiagonal [c; c; c]).
  rewrite !similarity_scalar3, Hr, !mscale_Identity3.
  reflexivity.
Qed.

(** X4.  Whatever 6x6 tensor is displayed in the base link, the result has
    six rows of six entries and its two off-diagonal 3x3 blocks are zero:
    a coupling between translation and rotation in the tensor is
    dropped. *)
Theorem displayInBaseLink_tensor_blocks
        (s : Base.State) (tensor : MatrixND) (link : string) (i j : nat) :
  (i < 3)%nat -> (3 <= j < 6)%nat ->
  let T := Base.displayInBaseLink_tensor s tensor link in
  length T = 6%nat /\ Forall (fun r => length r = 6%nat) T /\
  nth j (nth i T []) 0 = 0 /\ nth i (nth j T []) 0 = 0.
Proof.
  intros Hi Hj.
  cbv [Base.displayInBaseLink_tensor blockDiagonal mmul transpose toMatrix
       cols col map seq hd length app Zero repeat].
  split; [reflexivity|]. split.
  - repeat constructor.
  - destruct i as [|[|[|i]]]; try lia;
      destruct j as [|[|[|[|[|[|j]]]]]]; try lia; split; reflexivity.
Qed.

End TensorTransformer.

(** ** More on the motion errors *)

Section MotionErrors.
Import KDL.





(** X8.  The error of the controller with the postural task changes sign
    when target and current frame change places, and it is zero when they
    are the same frame. *)
Theorem computeMotionError_antisymmetric
        (s : CartesianImpedanceController.State) :
  let swapped :=
    CartesianImpedanceController.mkState
      (CartesianImpedanceController.base s)
      (CartesianImpedanceController.m_current_frame s)
      (CartesianImpedanceController.m_target_frame s)
      (CartesianImpedanceController.m_target_wrench s)
      (CartesianImpedanceController.warn_last_logged s)
      (CartesianImpedanceController.warnings s) in
  let same :=
    CartesianImpedanceController.set_target_frame
      (CartesianImpedanceController.m_current_frame s) s in
  Eigen.vadd6 (CartesianImpedanceController.computeMotionError s)
              (CartesianImpedanceController.computeMotionError swapped)
  = Eigen.Zero6 /\
  CartesianImpedanceController.computeMotionError same = Eigen.Zero6.
Proof.
  split.
  - unfold CartesianImpedanceController.computeMotionError,
      CartesianImpedanceController.Twist_to, Eigen.vadd6, Eigen.Zero6;
      simpl. f_equal; ring.
  - unfold CartesianImpedanceController.computeMotionError,
      CartesianImpedanceController.Twist_to, Eigen.Zero6;
      simpl. f_equal; ring.
Qed.

(** X9.  The rotation error of the controller with the postural task is
    blind to a half turn: when the current orientation is the target
    orientation turned by 180 degrees about the x axis of the target (the
    same x unit vector, opposite y and z unit vectors), the rotation block
    of the error is zero, as it is at the target. *)
Theorem computeMotionError_half_turn
        (s : CartesianImpedanceController.State) :
  let T := M (CartesianImpedanceController.m_target_frame s) in
  M (CartesianImpedanceController.m_current_frame s)
  = mkRotation (d0 T) (- d1 T) (- d2 T)
               (d3 T) (- d4 T) (- d5 T)
               (d6 T) (- d7 T) (- d8 T) ->
  tail3 (CartesianImpedanceController.computeMotionError s) = Vector_Zero.
Proof.
  intros T H.
  unfold CartesianImpedanceController.computeMotionError,
    CartesianImpedanceController.Twist_to, tail3, Vector_Zero; simpl.
  rewrite H; fold T; simpl. f_equal; ring.
Qed.

End MotionErrors.

(** ** Runs of messages *)

Section Runs.
Import HOCBFCartesianImpedanceController Subscription Callbacks.
Context {geo : KDL.Geometry} {kin : Base.Kinematics}.

Lemma deliver_base (s : State) (m : Message) : base (deliver s m) = base s.
Proof.
  destruct m as [now target|wrench]; simpl.
  - unfold targetFrameCallback.
    destruct (String.eqb _ _); simpl; [|reflexivity].
    destruct (m_received_initial_frame s); reflexivity.
  - unfold targetWrenchCallback; simpl.
    destruct (String.eqb _ _); reflexivity.
Qed.

Lemma accepted_poses_base (s s' : State) (ms : list Message) :
  base s' = base s -> accepted_poses s' ms = accepted_poses s ms.
Proof.
  intros H. induction ms as [|[now target|wrench] ms IH]; simpl; auto.
  unfold accepted. rewrite H, IH. reflexivity.
Qed.

Lemma run_cons (m : Message) (ms : list Message) (s : State) :
  run (m :: ms) s = run ms (deliver s m).
Proof. reflexivity. Qed.

(** X10.  After any run of messages the target frame is the pose of the
    last pose message that came in the robot base link, or the old target
    frame when there was none: poses in other frames and wrenches leave
    no trace in it. *)
Theorem run_target_frame (ms : list Message) (s : State) :
  m_target_frame (run ms s)
  = last (map pose_frame (accepted_poses s ms)) (m_target_frame s).
Proof.
  revert s. induction ms as [|m ms IH]; intros s; [reflexivity|].
  rewrite run_cons, IH, (accepted_poses_base s _ ms (deliver_base s m)).
  destruct m as [now target|wrench]; simpl.
  - unfold accepted, targetFrameCallback.
    destruct (String.eqb _ _); simpl.
    + destruct (accepted_poses s ms) as [|q qs] eqn:E.
      * simpl. destruct (m_received_initial_frame s); reflexivity.
      * assert (Hl : forall A (a b c : A) l,
                   last (b :: l) a = last (b :: l) c).
        { intros A a b c l. revert b. induction l as [|d l IHl]; intros b;
            [reflexivity|]. exact (IHl d). }
        change (last (map pose_frame (q :: qs)) ?d)
          with (last (pose_frame q :: map pose_frame qs) d).
        change (last (pose_frame target :: map pose_frame (q :: qs)) ?d)
          with (last (pose_frame q :: map pose_frame qs) d).
        apply Hl.
    + reflexivity.
  - unfold targetWrenchCallback; simpl.
    destruct (String.eqb _ _); reflexivity.
Qed.

(** X11.  The initial frame, the fixed reference of the barrier
    specifications, is written once: when no pose had been accepted before
    the run it is the pose of the first pose message of the run that came
    in the robot base link, and in every other case it is what it was. *)
Theorem run_initial_frame (ms : list Message) (s : State) :
  m_initial_frame (run ms s)
  = (if m_received_initial_frame s then m_initial_frame s
     else hd (m_initial_frame s) (map pose_frame (accepted_poses s ms))) /\
  m_received_initial_frame (run ms s)
  = (m_received_initial_frame s
     || negb (Nat.eqb (length (accepted_poses s ms)) 0))%bool.
Proof.
  revert s. induction ms as [|m ms IH]; intros s.
  - simpl. destruct (m_received_initial_frame s); split; reflexivity.
  - rewrite run_cons.
    destruct (IH (deliver s m)) as [Hi Hr]. rewrite Hi, Hr.
    rewrite (accepted_poses_base s _ ms (deliver_base s m)).
    destruct m as [now target|wrench]; simpl.
    + unfold accepted, targetFrameCallback.
      destruct (String.eqb _ _); simpl.
      * destruct (m_received_initial_frame s) eqn:E; simpl; rewrite ?E;
          simpl; split; reflexivity.
      * split; reflexivity.
    + unfold targetWrenchCallback; simpl.
      destruct (String.eqb _ _); simpl; split; reflexivity.
Qed.

(** X12.  The stored target wrench is that of the last wrench message
    alone: after a run that ends with a wrench message, it is what the
    callback of this message stores in the state before the run. *)
Theorem run_target_wrench
        (ms : list Message) (wrench : geometry_msgs.WrenchStamped)
        (s : State) :
  m_target_wrench (run (ms ++ [Wrench wrench]) s)
  = m_target_wrench (targetWrenchCallback wrench s).
Proof.
  unfold run. rewrite fold_left_app. simpl.
  fold (run ms s).
  assert (Hb : base (run ms s) = base s).
  { revert s. induction ms as [|m ms IH]; intros s; [reflexivity|].
    rewrite run_cons, IH. apply deliver_base. }
  unfold targetWrenchCallback; simpl. rewrite Hb.
  destruct (String.eqb _ _); reflexivity.
Qed.

Lemma deliver_log_ok (s : State) (m : Message) :
  log_ok s -> log_ok (deliver s m).
Proof.
  intros [Hs Hle]. destruct m as [now target|wrench]; simpl.
  - unfold targetFrameCallback.
    destruct (String.eqb _ _); simpl.
    + destruct (m_received_initial_frame s); split; assumption.
    + unfold rclcpp.THROTTLE.
      destruct (Z.leb_spec (warn_last_logged s + 3000) now) as [Hf|Hf];
        simpl; [|split; assumption].
      split.
      * destruct (warnings s) as [|b l]; simpl; [exact I|].
        split; [|exact Hs].
        assert (b <= warn_last_logged s)%Z by (apply Hle; now left). lia.
      * intros t [Ht|Ht]; simpl; [lia|].
        assert (t <= warn_last_logged s)%Z by (apply Hle; exact Ht). lia.
  - unfold targetWrenchCallback; simpl.
    destruct (String.eqb _ _); split; assumption.
Qed.

(** X13.  However many poses in a wrong frame arrive and whenever they
    arrive, two successive warnings are at least 3000 ms apart: starting
    with an empty log, after any run of messages the times in the log of
    warnings, latest first, go down in steps of at least 3000 ms. *)
Theorem run_warnings_spaced (ms : list Message) (s : State) :
  warnings s = [] -> spaced (warnings (run ms s)).
Proof.
  intros Hw.
  assert (H0 : log_ok s).
  { split; rewrite Hw; [exact I|intros t []]. }
  clear Hw. revert s H0.
  induction ms as [|m ms IH]; intros s H0; [apply H0|].
  rewrite run_cons. apply IH. now apply deliver_log_ok.
Qed.

End Runs.

(** ** The lifecycle of the base class *)

Section BaseLifecycle.
Import Eigen Base Lifecycle Limiter.
Context {env : Environment} {kin : Kinematics}.

(** X14.  The state interfaces that the controller requests are its
    command interfaces: one name joint/type for every joint and every
    command interface type, and no other name. *)
Theorem interface_configuration (s : State) (name : string) :
  state_interface_configuration s = command_interface_configuration s /\
  length (state_interface_configuration s)
  = (length (m_cmd_interface_types (core s))
     * length (m_joint_names (core s)))%nat /\
  (In name (state_interface_configuration s) <->
   exists type joint_name,
     In type (m_cmd_interface_types (core s)) /\
     In joint_name (m_joint_names (core s)) /\
     name = (joint_name ++ "/" ++ type)%string).
Proof.
  split; [reflexivity|]. unfold state_interface_configuration. split.
  - induction (m_cmd_interface_types (core s)) as [|t ts IH];
      [reflexivity|].
    cbn [flat_map length Nat.mul].
    rewrite length_app, length_map, IH. reflexivity.
  - rewrite in_flat_map. split.
    + intros (type & Ht & Hn). apply in_map_iff in Hn.
      destruct Hn as (j & <- & Hj). now exists type, j.
    + intros (type & j & Ht & Hj & ->). exists type. split; [exact Ht|].
      apply in_map_iff. now exists j.
Qed.








Lemma dot_Zero6 (r : VectorND) : dot r (coeffs Zero6) = 0.
Proof.
  unfold Zero6, coeffs; simpl.
  destruct r as [|a [|b [|c [|d [|e [|f [|g r]]]]]]]; simpl; ring.
Qed.

Lemma nth_map_Finite (v : VectorND) (i : nat) :
  (i < length v)%nat -> nth i (map Finite v) NaN = Finite (nth i v 0).
Proof.
  intros H. rewrite (nth_indep _ NaN (Finite 0)) by now rewrite length_map.
  apply (map_nth Finite).
Qed.

(** The zero command: efforts J^T 0, saturated, are zero for every joint
    whose limit is NaN or not negative. *)
Lemma zero_command (c : Base.State) (i : nat) :
  limits_ok c -> In HW_IF_EFFORT (m_cmd_interface_types c) ->
  length (m_joint_effort_limits c) = length (m_joint_names c) ->
  length (m_joint_cmd_eff_handles c) = length (m_joint_names c) ->
  cols (JntToJac (m_joint_positions c)) = length (m_joint_names c) ->
  (i < length (m_joint_names c))%nat ->
  let c' := writeJointEffortCmds (computeJointEffortCmds Zero6 c) in
  configured c' /\ m_joint_names c' = m_joint_names c /\
  nth i (m_joint_cmd_eff_handles c') NaN = Finite 0.
Proof.
  intros Hok Hin Hl Hh Hcols Hi c'.
  set (c1 := computeJointEffortCmds Zero6 c).
  assert (He : length (m_efforts c1) = length (m_joint_names c)).
  { unfold c1, computeJointEffortCmds; simpl.
    unfold mvmul, transpose. rewrite !length_map, length_seq. exact Hcols. }
  assert (Hc1 : configured c1).
  { unfold configured, sized. repeat split; try assumption. }
  assert (Hs1 : sized c1) by apply Hc1.
  destruct (types_loop (m_cmd_interface_types c1) c1 Hs1) as (Hs' & Hcfg & _).
  split; [|split].
  - split; [exact Hs'|]. destruct Hcfg as (Hty & _).
    change (In HW_IF_EFFORT
              (m_cmd_interface_types
                 (fold_left types_step (m_cmd_interface_types c1) c1))).
    rewrite Hty. exact Hin.
  - destruct Hcfg as (_ & Hn & _). exact Hn.
  - assert (HL : nth i (m_joint_effort_limits c1) NaN = NaN \/
                 exists l, nth i (m_joint_effort_limits c1) NaN = Finite l
                           /\ 0 <= l).
    { unfold limits_ok in Hok. rewrite Forall_forall in Hok.
      apply Hok. apply nth_In. simpl. now rewrite Hl. }
    change (nth i (m_joint_cmd_eff_handles (writeJointEffortCmds c1)) NaN
            = Finite 0).
    rewrite (written_saturated c1 i Hc1 Hi HL).
    unfold sat_at.
    assert (Hz : nth i (m_efforts c1) NaN = Finite 0).
    { unfold c1, computeJointEffortCmds; simpl.
      rewrite nth_map_Finite.
      - f_equal. unfold mvmul.
        rewrite (nth_indep _ 0 (dot [] (coeffs Zero6))).
        + rewrite (map_nth (fun r => dot r (coeffs Zero6))).
          apply dot_Zero6.
        + unfold transpose. rewrite !length_map, length_seq.
          rewrite Hcols. exact Hi.
      - unfold mvmul, transpose. rewrite !length_map, length_seq.
        rewrite Hcols. exact Hi. }
    rewrite Hz.
    destruct HL as [->|(l & -> & Hl0)].
    + apply saturate_NaN_limit.
    + unfold saturate, le, ge, opp, Rleb.
      repeat (destruct (Rle_dec _ _); try lra); try reflexivity.
      f_equal; lra.
Qed.

(** X17.  A successful on_activate of an inactive controller that holds no
    handles yet, with effort limits that are NaN or not negative and a
    Jacobian with one column per joint, commands zero effort on every
    joint, holds one command handle per joint, is active, and leaves the
    arrays in the shape that writeJointEffortCmds relies on. *)
Theorem on_activate_zero_command (s s' : State) (i : nat) :
  m_active (flags s) = false ->
  m_joint_cmd_eff_handles (core s) = [] ->
  limits_ok (core s) ->
  In HW_IF_EFFORT (m_cmd_interface_types (core s)) ->
  length (m_joint_effort_limits (core s)) = length (m_joint_names (core s)) ->
  cols (JntToJac (m_joint_positions (core s)))
  = length (m_joint_names (core s)) ->
  (i < length (m_joint_names (core s)))%nat ->
  on_activate s = (SUCCESS, s') ->
  m_active (flags s') = true /\ configured (core s') /\
  length (m_joint_cmd_eff_handles (core s'))
  = length (m_joint_names (core s)) /\
  nth i (m_joint_cmd_eff_handles (core s')) NaN = Finite 0.
Proof.
  intros Ha Hh Hok Hin Hl Hcols Hi. unfold on_activate. rewrite Ha, Hh.
  simpl.
  destruct (Nat.eqb_spec (length (m_joint_names (core s)))
              (length (ordered_command_interfaces
                         (m_joint_names (core s)) HW_IF_EFFORT)))
    as [Hc|Hc]; simpl; [|discriminate].
  destruct (Nat.eqb _ (length (_ ++ ordered_state_interfaces _ HW_IF_POSITION)));
    simpl; [|discriminate].
  destruct (Nat.eqb _ (length (_ ++ ordered_state_interfaces _ HW_IF_VELOCITY)));
    simpl; [|discriminate].
  intros H. injection H as <-. simpl.
  match goal with
  | |- context [writeJointEffortCmds (computeJointEffortCmds Zero6 ?c)] =>
      pose proof (zero_command c i) as Hz
  end.
  simpl in Hz. specialize (Hz Hok Hin Hl (eq_sym Hc) Hcols Hi).
  destruct Hz as (Hcfg & Hnames & Hzero).
  split; [reflexivity|]. split; [exact Hcfg|]. split; [|exact Hzero].
  destruct Hcfg as [(_ & _ & Hlen) _].
  rewrite Hlen, Hnames. reflexivity.
Qed.

End BaseLifecycle.

(** ** The control law at the target, and the lifecycle of the
       safety-filtered controller *)

Section AtTarget.
Import Eigen KDL Frames AtRest HOCBFCartesianImpedanceController.









Context {geo : Geometry} {kin : Base.Kinematics} {dyn : Dynamics}
        {flt : SafetyFilter}.



End AtTarget.

Section HOCBFLifecycleProperties.
Import Eigen KDL Frames AtRest HOCBFCartesianImpedanceController.
Import HOCBFLifecycle.
Context {geo : Geometry} {kin : Base.Kinematics} {dyn : Dynamics}
        {flt : SafetyFilter} {env : Lifecycle.Environment} {chain : Chain}.


Lemma sqrt_critical (k : R) : 0 <= k -> 2 * sqrt k * (2 * sqrt k) = 4 * k.
Proof.
  intros Hk. replace (2 * sqrt k * (2 * sqrt k))
    with (4 * (sqrt k * sqrt k)) by ring.
  now rewrite sqrt_sqrt.
Qed.

Ltac entries := repeat (apply (f_equal2 (@cons _))); try reflexivity.

(** X20.  The gains that on_configure sets are critically damped axis by
    axis: with stiffness parameters that are not negative, the damping
    matrix D and the stiffness matrix K are diagonal with D D = 4 K, K has
    the six stiffness parameters on its diagonal, and the null-space
    damping d and stiffness k satisfy d d = 4 k. *)
Theorem on_configure_gains
        (bp : Lifecycle.Parameters) (p : Parameters) (s s' : State) :
  0 <= stiffness_trans_x p -> 0 <= stiffness_trans_y p ->
  0 <= stiffness_trans_z p -> 0 <= stiffness_rot_x p ->
  0 <= stiffness_rot_y p -> 0 <= stiffness_rot_z p ->
  0 <= nullspace_stiffness p ->
  on_configure bp p s = Configured s' ->
  m_cartesian_stiffness (controller s')
  = asDiagonal [ stiffness_trans_x p; stiffness_trans_y p;
                 stiffness_trans_z p; stiffness_rot_x p;
                 stiffness_rot_y p; stiffness_rot_z p ] /\
  mmul (m_cartesian_damping (controller s'))
       (m_cartesian_damping (controller s'))
  = mscale 4 (m_cartesian_stiffness (controller s')) /\
  m_null_space_damping s' * m_null_space_damping s'
  = 4 * m_null_space_stiffness s'.
Proof.
  intros H1 H2 H3 H4 H5 H6 H7. unfold on_configure.
  destruct (Lifecycle.on_configure bp (base_part s)) as [b|];
    [|discriminate].
  destruct (robotChainContains (ft_sensor_ref_link p)); simpl;
    [|discriminate].
  intros H. injection H as <-. simpl.
  split; [reflexivity|]. split; [|now apply sqrt_critical].
  cbv [mmul mscale vscale asDiagonal cols col dot map seq hd length nth
       Nat.eqb].
  entries.
  all: try ring.
  all: ring_simplify.
  all: rewrite <- Rsqr_pow2, Rsqr_sqrt by assumption; ring.
Qed.

End HOCBFLifecycleProperties.

(** ** The tick, and the cycle of activation and deactivation *)

Section Tick.
Import Eigen Base Limiter.

(** X21.  updateJointStates copies the reading of every position state
    interface into the joint positions, when there is one handle and one
    position per joint. *)
Theorem updateJointStates_reads (c : Base.State) :
  length (m_joint_state_pos_handles c) = length (m_joint_names c) ->
  length (m_joint_positions c) = length (m_joint_names c) ->
  m_joint_positions (updateJointStates c) = m_joint_state_pos_handles c.
Proof.
  intros Hh Hp.
  assert (Hgen : forall l c0,
             m_joint_state_pos_handles c0 = m_joint_state_pos_handles c ->
             length (m_joint_positions c0) = length (m_joint_names c) ->
             NoDup l ->
             (forall i, In i l -> (i < length (m_joint_names c))%nat) ->
             let c' :=
               fold_left
                 (fun s i =>
                    set_joint_positions
                      (assign i (nth i (m_joint_state_pos_handles s) 0)
                              (m_joint_positions s)) s) l c0 in
             length (m_joint_positions c') = length (m_joint_names c) /\
             forall i,
               (In i l -> nth i (m_joint_positions c') 0
                          = nth i (m_joint_state_pos_handles c) 0) /\
               (~ In i l -> nth i (m_joint_positions c') 0
                            = nth i (m_joint_positions c0) 0)).
  { induction l as [|a l IH]; intros c0 H0 Hl Hnd Hlt; simpl.
    - split; [exact Hl|]. intros i; split; [intros []|reflexivity].
    - inversion Hnd as [|? ? Ha Hnd']; subst.
      set (c1 := set_joint_positions
                   (assign a (nth a (m_joint_state_pos_handles c0) 0)
                           (m_joint_positions c0)) c0).
      destruct (IH c1) as [Hlen Hn]; auto.
      { unfold c1; simpl. now rewrite length_assign. }
      { intros i Hi. apply Hlt. now right. }
      split; [exact Hlen|]. intros i. destruct (Hn i) as [Hin Hout].
      split.
      + intros [<-|Hi]; [|now apply Hin].
        rewrite (Hout Ha). unfold c1; simpl.
        rewrite nth_assign_same, H0; [reflexivity|].
        rewrite Hl. apply Hlt. now left.
      + intros Hni. rewrite Hout by (intros Hi; apply Hni; now right).
        unfold c1; simpl. apply nth_assign_other.
        intros ->. apply Hni. now left. }
  destruct (Hgen (seq 0 (length (m_joint_names c))) c eq_refl Hp
                 (seq_NoDup _ _)) as [Hlen Hn].
  { intros i Hi. apply in_seq in Hi. lia. }
  apply (nth_ext _ _ 0 0).
  - unfold updateJointStates. rewrite Hlen. now rewrite Hh.
  - intros i Hi. unfold updateJointStates in *.
    apply (Hn i). apply in_seq. rewrite Hlen in Hi. lia.
Qed.

Import HOCBFCartesianImpedanceController.
Context {geo : KDL.Geometry} {kin : Base.Kinematics} {dyn : Dynamics}
        {flt : SafetyFilter}.


End Tick.

Section Cycle.
Import Eigen Base Lifecycle.
Context {env : Environment} {kin : Kinematics}.

Lemma write_joints_names (l : list nat) (c : Base.State) :
  m_joint_names (fold_left write_joint l c) = m_joint_names c.
Proof.
  revert c. induction l as [|a l IH]; intros c; simpl; [reflexivity|].
  now rewrite IH.
Qed.

Lemma writeJointEffortCmds_names (c : Base.State) :
  m_joint_names (writeJointEffortCmds c) = m_joint_names c.
Proof.
  unfold writeJointEffortCmds.
  generalize (m_cmd_interface_types c) as types. intros types.
  revert c. induction types as [|t types IH]; intros c; simpl;
    [reflexivity|].
  rewrite IH. destruct (String.eqb t HW_IF_EFFORT); [|reflexivity].
  apply write_joints_names.
Qed.

(** X23.  Activation can be repeated: after a successful on_activate of a
    controller that held no handles, on_deactivate leaves the controller
    inactive and without any handle, and the next on_activate succeeds
    again. *)
Theorem activate_deactivate_activate (s s1 : State) :
  m_active (flags s) = false ->
  m_joint_cmd_eff_handles (core s) = [] ->
  m_joint_state_pos_handles (core s) = [] ->
  m_joint_state_vel_handles (flags s) = [] ->
  on_activate s = (SUCCESS, s1) ->
  let s2 := snd (on_deactivate s1) in
  fst (on_deactivate s1) = SUCCESS /\
  m_active (flags s2) = false /\
  m_joint_cmd_eff_handles (core s2) = [] /\
  m_joint_state_pos_handles (core s2) = [] /\
  m_joint_state_vel_handles (flags s2) = [] /\
  fst (on_activate s2) = SUCCESS.
Proof.
  intros Ha Hc Hp Hv. unfold on_activate. rewrite Ha, Hc. simpl.
  rewrite Hp, Hv. simpl.
  destruct (Nat.eqb (length (m_joint_names (core s)))
                    (length (ordered_command_interfaces
                               (m_joint_names (core s)) HW_IF_EFFORT)))
    eqn:E1; simpl; [|discriminate].
  destruct (Nat.eqb (length (m_joint_names (core s)))
                    (length (ordered_state_interfaces
                               (m_joint_names (core s)) HW_IF_POSITION)))
    eqn:E2; simpl; [|discriminate].
  destruct (Nat.eqb (length (m_joint_names (core s)))
                    (length (ordered_state_interfaces
                               (m_joint_names (core s)) HW_IF_VELOCITY)))
    eqn:E3; simpl; [|discriminate].
  intros H. injection H as <-. simpl.
  repeat split.
  rewrite writeJointEffortCmds_names. simpl.
  rewrite E1. simpl. rewrite E2. simpl. rewrite E3. reflexivity.
Qed.

End Cycle.

(** ** The control law of the controller with the postural task *)

Section ImpedanceLawProperties.
Import Eigen KDL Frames CartesianImpedanceController ImpedanceLaw.





Context {kin : Base.Kinematics} {pinv : PseudoInversion}.










(** X26.  Without contact the force error is the target wrench: when the
    sensor wrench is zero, computeForceError returns the target wrench
    itself if it is given in the base link and the target wrench displayed
    in the base link if it is given in the hand frame, and its force has
    the magnitude of the force of the target wrench in both cases, for an
    end effector whose forward kinematics is a rotation matrix. *)
Theorem computeForceError_no_contact (s : State) :
  let b := base (controller s) in
  let target := m_target_wrench (controller s) in
  m_ft_sensor_wrench s = Zero6 ->
  orthonormal
    (M (Base.JntToCart (Base.ik_positions b) (Base.m_end_effector_link b))) ->
  computeForceError s
  = (if hand_frame_control s
     then Base.displayInBaseLink b target (Base.m_end_effector_link b)
     else target) /\
  Norm (head3 (computeForceError s)) = Norm (head3 target).
Proof.
  intros b target Hs [Hl _].
  assert (Hz : forall w link,
             vadd6 (Base.displayInBaseLink b Zero6 link) w = w).
  { intros [a0 a1 a2 a3 a4 a5] link.
    unfold Base.displayInBaseLink, vadd6, Zero6; simpl. f_equal; ring. }
  assert (Hf : computeForceError s
               = (if hand_frame_control s
                  then Base.displayInBaseLink
                         b target (Base.m_end_effector_link b)
                  else target)).
  { unfold computeForceError. fold b. fold target. rewrite Hs. apply Hz. }
  split; [exact Hf|]. rewrite Hf.
  destruct (hand_frame_control s); [|reflexivity].
  unfold Base.displayInBaseLink.
  change (Norm (rapply (M (Base.JntToCart (Base.ik_positions b)
                                          (Base.m_end_effector_link b)))
                       (head3 target)) = Norm (head3 target)).
  now apply Norm_rapply.
Qed.

End ImpedanceLawProperties.

(** ** The properties at the reference arm *)

Section AtTheBench.
Import KDL Frames.

#[local] Existing Instance Reference.geometry.
#[local] Existing Instance Reference.kinematics.
#[local] Existing Instance Reference.dynamics.
#[local] Existing Instance Reference.filter.
#[local] Existing Instance Bench.environment.
#[local] Existing Instance Bench.chain.
#[local] Existing Instance Bench.pseudo_inversion.



Lemma displayInBaseLink_displayInTipLink_witness :
  Base.displayInTipLink
    (kin := Reference.kinematics) Examples.base6
    (Base.displayInBaseLink Examples.base6 (Eigen.mkVector6D 1 2 3 4 5 6)
                            "tool0") "tool0"
  = Eigen.mkVector6D 1 2 3 4 5 6.
Proof.
  destruct (displayInBaseLink_displayInTipLink
              (kin := Reference.kinematics) Examples.base6
              (Eigen.mkVector6D 1 2 3 4 5 6) "tool0") as [H _].
  - apply orthonormal_Identity.
  - exact H.
Defined.

Lemma displayInBaseLink_magnitudes_witness :
  Norm (head3 (Base.displayInBaseLink
                 (kin := Reference.kinematics) Examples.base6
                 (Eigen.mkVector6D 1 2 3 4 5 6) "tool0"))
  = Norm (head3 (Eigen.mkVector6D 1 2 3 4 5 6)).
Proof.
  destruct (displayInBaseLink_magnitudes
              (kin := Reference.kinematics) Examples.base6
              (Eigen.mkVector6D 1 2 3 4 5 6) "tool0") as [H _].
  - apply orthonormal_Identity.
  - exact H.
Defined.

Lemma displayInBaseLink_isotropic_witness :
  Base.displayInBaseLink_tensor
    (kin := Reference.kinematics) Examples.base6 (isotropic 500 50) "tool0"
  = isotropic 500 50.
Proof.
  apply (displayInBaseLink_isotropic
           (kin := Reference.kinematics) Examples.base6 500 50 "tool0").
  apply orthonormal_Identity.
Defined.

Lemma displayInBaseLink_tensor_blocks_witness :
  nth 4 (nth 1 (Base.displayInBaseLink_tensor
                  (kin := Reference.kinematics) Examples.base6
                  (repeat (repeat 1 6) 6) "tool0") []) 0 = 0.
Proof.
  destruct (displayInBaseLink_tensor_blocks
              (kin := Reference.kinematics) Examples.base6
              (repeat (repeat 1 6) 6) "tool0" 1 4) as (_ & _ & H & _).
  - lia.
  - lia.
  - exact H.
Defined.




Lemma computeMotionError_half_turn_witness :
  tail3 (CartesianImpedanceController.computeMotionError
           Bench.impedance_half_turn) = Vector_Zero.
Proof.
  apply (computeMotionError_half_turn Bench.impedance_half_turn).
  reflexivity.
Defined.

Lemma run_warnings_spaced_witness :
  Subscription.spaced
    (HOCBFCartesianImpedanceController.warnings
       (Subscription.run (geo := Reference.geometry)
                         (kin := Reference.kinematics)
                         Bench.messages Examples.hocbf0)).
Proof.
  apply (run_warnings_spaced
           (geo := Reference.geometry) (kin := Reference.kinematics)
           Bench.messages Examples.hocbf0).
  reflexivity.
Defined.



Lemma on_activate_zero_command_witness :
  exists s',
    Lifecycle.on_activate Bench.inactive = (Lifecycle.SUCCESS, s') /\
    nth 0 (Base.m_joint_cmd_eff_handles (Lifecycle.core s')) Base.NaN
    = Base.Finite 0.
Proof.
  assert (E : exists s', Lifecycle.on_activate Bench.inactive
                         = (Lifecycle.SUCCESS, s'))
    by (eexists; reflexivity).
  destruct E as [s' E]. exists s'. split; [exact E|].
  destruct (on_activate_zero_command Bench.inactive s' 0)
    as (_ & _ & _ & H).
  - reflexivity.
  - reflexivity.
  - unfold Lifecycle.limits_ok; simpl.
    repeat (apply Forall_cons;
            [right; exists 87; split; [reflexivity|lra]|]).
    apply Forall_nil.
  - left; reflexivity.
  - reflexivity.
  - reflexivity.
  - simpl; lia.
  - exact E.
  - exact H.
Defined.



Lemma on_configure_gains_witness :
  exists s',
    HOCBFLifecycle.on_configure
      Bench.parameters HOCBFLifecycle.on_init_defaults Bench.hocbf_lifecycle
    = HOCBFLifecycle.Configured s' /\
    HOCBFLifecycle.m_null_space_damping s'
    * HOCBFLifecycle.m_null_space_damping s'
    = 4 * HOCBFLifecycle.m_null_space_stiffness s'.
Proof.
  assert (E : exists s',
             HOCBFLifecycle.on_configure
               Bench.parameters HOCBFLifecycle.on_init_defaults
               Bench.hocbf_lifecycle
             = HOCBFLifecycle.Configured s')
    by (eexists; reflexivity).
  destruct E as [s' E]. exists s'. split; [exact E|].
  destruct (on_configure_gains
              Bench.parameters HOCBFLifecycle.on_init_defaults
              Bench.hocbf_lifecycle s')
    as (_ & _ & H);
    [simpl; lra | simpl; lra | simpl; lra | simpl; lra | simpl; lra
    | simpl; lra | simpl; lra | exact E | exact H].
Defined.

Lemma updateJointStates_reads_witness :
  Base.m_joint_positions (Base.updateJointStates Examples.base6)
  = Base.m_joint_state_pos_handles Examples.base6.
Proof.
  apply (updateJointStates_reads Examples.base6); reflexivity.
Defined.

Lemma activate_deactivate_activate_witness :
  exists s1,
    Lifecycle.on_activate Bench.inactive = (Lifecycle.SUCCESS, s1) /\
    fst (Lifecycle.on_activate (snd (Lifecycle.on_deactivate s1)))
    = Lifecycle.SUCCESS.
Proof.
  assert (E : exists s', Lifecycle.on_activate Bench.inactive
                         = (Lifecycle.SUCCESS, s'))
    by (eexists; reflexivity).
  destruct E as [s1 E]. exists s1. split; [exact E|].
  destruct (activate_deactivate_activate Bench.inactive s1)
    as (_ & _ & _ & _ & _ & H);
    [reflexivity | reflexivity | reflexivity | reflexivity
    | exact E | exact H].
Defined.


Lemma computeForceError_no_contact_witness :
  Norm (head3 (ImpedanceLaw.computeForceError Bench.impedance_law))
  = Norm (head3 (Eigen.mkVector6D 0 0 5 0 0 0)).
Proof.
  destruct (computeForceError_no_contact Bench.impedance_law) as [_ H].
  - reflexivity.
  - apply orthonormal_Identity.
  - exact H.
Defined.


End AtTheBench.
